(** * Unmanic post-processor script plugin: a shallow embedding of [plugin.py]

    The development follows [src/plugin.py].  A Python [str] is modelled as a
    Stdlib [string]; an [ascii] stands for the code point of the same number
    (so the model covers the code points 0..255).  Everything the plugin does
    to the outside world (processes, files, directories, the environment) is
    recorded, in order, in a trace of events; everything it reads from the
    outside world is answered by a [host] record whose answers may depend on
    the trace so far.  Calls to the [logger] are not modelled: they do not
    influence control flow or any value the plugin computes. *)

From Stdlib Require Import String Ascii List ZArith Bool Lia DecimalString.
From Stdlib Require Import DecimalPos DecimalZ.
Import ListNotations.

Local Open Scope list_scope.
Local Open Scope string_scope.

(* ================================================================== *)
(** ** Python string primitives *)

Module PyStr.

(** Code points of the characters the plugin names. *)
Definition LF : ascii := ascii_of_nat 10.
Definition CR : ascii := ascii_of_nat 13.
Definition SP : ascii := ascii_of_nat 32.

(** [str.replace(old, new)] for a non-empty [old]: scan from the left;
    where [old] starts, emit [new] and skip over the [length old] matched
    characters (matches do not overlap), elsewhere copy
    the character.  [skip] counts the characters of the current match that
    are still to be dropped. *)
Fixpoint replace_from (old new : string) (skip : nat) (s : string) : string :=
  match s with
  | EmptyString => EmptyString
  | String c s' =>
      match skip with
      | S k => replace_from old new k s'
      | O =>
          if prefix old s
          then new ++ replace_from old new (String.length old - 1) s'
          else String c (replace_from old new 0 s')
      end
  end.

(** [str.replace] with the empty pattern puts [new] before every character
    and after the last one. *)
Fixpoint replace_empty (new s : string) : string :=
  match s with
  | EmptyString => new
  | String c s' => new ++ String c (replace_empty new s')
  end.

(** [s.replace(old, new)] *)
Definition replace (old new s : string) : string :=
  match old with
  | EmptyString => replace_empty new s
  | String _ _ => replace_from old new 0 s
  end.

(** [str.isspace] on one character, for the code points below 256:
    TAB, LF, VT, FF, CR, FS, GS, RS, US, SPACE, NEL and NBSP. *)
Definition isspace (c : ascii) : bool :=
  let n := nat_of_ascii c in
  (((9 <=? n) && (n <=? 13)) || ((28 <=? n) && (n <=? 32))
   || (n =? 133) || (n =? 160))%nat.

(** [s.lstrip()] *)
Fixpoint lstrip (s : string) : string :=
  match s with
  | EmptyString => EmptyString
  | String c s' => if isspace c then lstrip s' else s
  end.

(** [s.rstrip()] *)
Fixpoint rstrip (s : string) : string :=
  match s with
  | EmptyString => EmptyString
  | String c s' =>
      match rstrip s' with
      | EmptyString => if isspace c then EmptyString else String c EmptyString
      | r => String c r
      end
  end.

(** [s.strip()] *)
Definition strip (s : string) : string := rstrip (lstrip s).

(** Truth value of a [str] in a condition: the empty string is false. *)
Definition truthy (s : string) : bool :=
  match s with
  | EmptyString => false
  | String _ _ => true
  end.

(** [str(n)] for an [int]. *)
Definition str_int (n : Z) : string := NilZero.string_of_int (Z.to_int n).

(** [str(v)] for a value that is an [int] or [None]. *)
Definition str_opt_int (v : option Z) : string :=
  match v with
  | Some n => str_int n
  | None => "None"
  end.

(** [str(v)] for a value that is a [str] or [None]. *)
Definition str_opt (v : option string) : string :=
  match v with
  | Some s => s
  | None => "None"
  end.

(** [needle in s] *)
Definition occurs_in (needle s : string) : Prop :=
  exists before after : string, s = before ++ needle ++ after.

(** "Empty or whitespace-only": every character is white space. *)
Fixpoint all_space (s : string) : bool :=
  match s with
  | EmptyString => true
  | String c s' => isspace c && all_space s'
  end.

(** [s[n:]] *)
Fixpoint drop (n : nat) (s : string) : string :=
  match n, s with
  | S n', String _ s' => drop n' s'
  | _, _ => s
  end.

(** [c in s] for a character. *)
Fixpoint has_char (c : ascii) (s : string) : bool :=
  match s with
  | EmptyString => false
  | String c' s' => Ascii.eqb c' c || has_char c s'
  end.

End PyStr.

(* ================================================================== *)
(** ** [os.path] (POSIX flavour) and [json.dumps] *)

Module PyLib.

Definition SEP : ascii := ascii_of_nat 47.
Definition DQUOTE : ascii := ascii_of_nat 34.
Definition BACKSLASH : ascii := ascii_of_nat 92.

(** [s.startswith('/')] *)
Definition starts_with_sep (s : string) : bool :=
  match s with
  | String c _ => Ascii.eqb c SEP
  | EmptyString => false
  end.

(** [s.endswith('/')] *)
Fixpoint ends_with_sep (s : string) : bool :=
  match s with
  | EmptyString => false
  | String c EmptyString => Ascii.eqb c SEP
  | String _ s' => ends_with_sep s'
  end.

(** One step of [posixpath.join]: an absolute component replaces what came
    before it, otherwise it is appended, with a separator unless the path so
    far is empty or already ends in one. *)
Definition join (path b : string) : string :=
  if starts_with_sep b then b
  else if negb (PyStr.truthy path) || ends_with_sep path then path ++ b
  else path ++ String SEP b.

(** [p[:p.rfind('/') + 1]] *)
Fixpoint head_upto_last_sep (p : string) : string :=
  match p with
  | EmptyString => EmptyString
  | String c p' =>
      match head_upto_last_sep p' with
      | EmptyString => if Ascii.eqb c SEP then String c EmptyString else EmptyString
      | h => String c h
      end
  end.

(** [s == '/' * len(s)] *)
Fixpoint all_sep (s : string) : bool :=
  match s with
  | EmptyString => true
  | String c s' => Ascii.eqb c SEP && all_sep s'
  end.

(** [s.rstrip('/')] *)
Fixpoint rstrip_sep (s : string) : string :=
  match s with
  | EmptyString => EmptyString
  | String c s' =>
      match rstrip_sep s' with
      | EmptyString => if Ascii.eqb c SEP then EmptyString else String c EmptyString
      | r => String c r
      end
  end.

(** [posixpath.dirname] *)
Definition dirname (p : string) : string :=
  let head := head_upto_last_sep p in
  if PyStr.truthy head && negb (all_sep head) then rstrip_sep head else head.

(** Lower-case hexadecimal digit. *)
Definition hex_digit (n : nat) : ascii :=
  if (n <? 10)%nat then ascii_of_nat (48 + n) else ascii_of_nat (87 + n).

(** The replacement [json.encoder] makes for one character when
    [ensure_ascii] is on: the two-character escapes of its table, the
    character itself between SPACE and [~], and [\u00xx] otherwise. *)
Definition json_escape_char (c : ascii) : string :=
  let n := nat_of_ascii c in
  let esc (x : ascii) := String BACKSLASH (String x EmptyString) in
  if (n =? 92)%nat then esc BACKSLASH
  else if (n =? 34)%nat then esc DQUOTE
  else if (n =? 8)%nat then esc "b"%char
  else if (n =? 12)%nat then esc "f"%char
  else if (n =? 10)%nat then esc "n"%char
  else if (n =? 13)%nat then esc "r"%char
  else if (n =? 9)%nat then esc "t"%char
  else if ((32 <=? n) && (n <=? 126))%nat then String c EmptyString
  else String BACKSLASH
         (String "u"%char (String "0"%char (String "0"%char
           (String (hex_digit (n / 16)) (String (hex_digit (n mod 16)) EmptyString))))).

(** [json.dumps(s)] for a [str]. *)
Fixpoint json_escape (s : string) : string :=
  match s with
  | EmptyString => EmptyString
  | String c s' => json_escape_char c ++ json_escape s'
  end.

Definition json_dumps_str (s : string) : string :=
  String DQUOTE (json_escape s ++ String DQUOTE EmptyString).

(** [json.dumps(l)] for a list of [str]: the items separated by a comma and
    a space, between square brackets. *)
Definition json_dumps (l : list string) : string :=
  "[" ++ String.concat ", " (map json_dumps_str l) ++ "]".

End PyLib.

(* ================================================================== *)
(** ** Effects: the trace, the host and the monad *)

(** What the plugin does to the outside world.  [Invoke] marks an entry into
    [exec_subprocess] and has no effect of its own; [Popen] is a spawned
    shell process that has run to completion, with its exit status. *)
Inductive event : Type :=
| Invoke (cmd args : string) (cwd : option string)
| Popen (full_command : string) (cwd : option string) (returncode : Z)
| Makedirs (path : string)
| WriteFile (path content : string)
| Chmod (path : string) (mode : Z)
| Putenv (name value : string).

(** Events in the order they happened, the latest last. *)
Definition trace := list event.

(** What the plugin reads from the outside world.  The answers that can
    change while the hook runs take the trace so far. *)
Record host : Type := {
  which : string -> option string;                    (* shutil.which *)
  isdir : trace -> string -> bool;                    (* os.path.isdir *)
  st_mode : trace -> string -> Z;                     (* os.stat(p).st_mode *)
  getsize : trace -> string -> option Z;              (* None: os.path.exists is false *)
  returncode : trace -> string -> option string -> Z; (* exit status of a shell command *)
  get_profile_directory : string                      (* settings.get_profile_directory() *)
}.

Inductive exn : Type :=
| Exception (msg : string)
| TypeError (msg : string).

Inductive outcome (A : Type) : Type :=
| Return (a : A)
| Raise (e : exn).
Arguments Return {A} a.
Arguments Raise {A} e.

(** A computation reads the trace so far and gives its outcome and the
    extended trace. *)
Definition M (A : Type) : Type := trace -> outcome A * trace.

Definition ret {A : Type} (a : A) : M A := fun tr => (Return a, tr).

Definition bind {A B : Type} (m : M A) (k : A -> M B) : M B :=
  fun tr =>
    match m tr with
    | (Return a, tr') => k a tr'
    | (Raise e, tr') => (Raise e, tr')
    end.

Definition raise {A : Type} (e : exn) : M A := fun tr => (Raise e, tr).

Definition emit (e : event) : M unit := fun tr => (Return tt, (tr ++ [e])%list).

Definition ask {A : Type} (q : trace -> A) : M A := fun tr => (Return (q tr), tr).

Declare Scope py_scope.
Delimit Scope py_scope with py.
Notation "x <- m ;; k" := (bind m (fun x => k))
  (at level 61, m at next level, right associativity) : py_scope.
Notation "m ;; k" := (bind m (fun _ => k))
  (at level 61, right associativity) : py_scope.
Local Open Scope py_scope.

(* ================================================================== *)
(** ** The plugin *)

(** The values of [Settings.settings]. *)
Record Settings : Type := {
  only_on_task_processing_success : bool;
  run_for_each_destination_file : bool;
  input_type : string;
  script : string;
  cmd : string;
  args : string;
  script_dependencies : string
}.

(** The [data] argument of the hook.  [destination_files] is [None] when the
    key is missing from the dictionary. *)
Record Data : Type := {
  final_cache_path : string;
  library_id : Z;
  task_processing_success : bool;
  file_move_processes_success : bool;
  destination_files : option (list string);
  source_data_abspath : string
}.

Definition S_IEXEC : Z := 64.

(** ["{} {}".format(cmd, args)] *)
Definition full_command_of (cmd args : string) : string := cmd ++ " " ++ args.

Definition failure_message (full_command : string) : string :=
  "Failed to execute command: '" ++ full_command ++ "'".

(** [exec_subprocess(cmd, args, cwd)]: [Some true] is Python's [True],
    [None] the implicit [None] of the branch that spawns nothing. *)
Definition exec_subprocess (h : host) (cmd args : string) (cwd : option string)
  : M (option bool) :=
  emit (Invoke cmd args cwd) ;;
  let full_command := full_command_of cmd args in
  if PyStr.truthy (PyStr.strip full_command) then
    code <- ask (fun tr => returncode h tr full_command cwd) ;;
    emit (Popen full_command cwd code) ;;
    if (code =? 0)%Z then ret (Some true)
    else raise (Exception (failure_message full_command))
  else ret None.

(** [if not os.path.isdir(p): os.makedirs(p)] *)
Definition ensure_dir (h : host) (p : string) : M unit :=
  present <- ask (fun tr => isdir h tr p) ;;
  if present then ret tt else emit (Makedirs p).

Definition get_executable_venv_python (h : host)
    (script_dependencies temp_working_directory dependency_cache_directory : string)
  : M string :=
  let executable := which h "python3" in
  emit (WriteFile (PyLib.join temp_working_directory "requirements.txt") script_dependencies) ;;
  let cache_path := PyLib.join dependency_cache_directory "pip" in
  ensure_dir h cache_path ;;
  exec_subprocess h (PyStr.str_opt executable ++ " -m venv venv") ""
                  (Some temp_working_directory) ;;
  let executable :=
    PyLib.join (PyLib.join (PyLib.join temp_working_directory "venv") "bin") "python3" in
  emit (Putenv "PIP_CACHE_DIR" cache_path) ;;
  exec_subprocess h (executable ++ " -m pip install -r requirements.txt") ""
                  (Some temp_working_directory) ;;
  ret executable.

Definition get_executable_node (h : host)
    (script_dependencies temp_working_directory dependency_cache_directory : string)
  : M (option string) :=
  let node_executable := which h "node" in
  let npm_executable := which h "npm" in
  emit (WriteFile (PyLib.join temp_working_directory "package.json") script_dependencies) ;;
  let cache_path := PyLib.join dependency_cache_directory "node" in
  ensure_dir h cache_path ;;
  exec_subprocess h (PyStr.str_opt npm_executable ++ " install --cache " ++ cache_path
                       ++ " --prefer-offline ") ""
                  (Some temp_working_directory) ;;
  ret node_executable.

Definition get_temp_directory (h : host) (cache_file_path : string) : M string :=
  let output_directory := PyLib.join (PyLib.dirname cache_file_path) "postprocessor_script" in
  ensure_dir h output_directory ;;
  ret output_directory.

Definition get_dependency_cache_directory (h : host) (library_id : Z) : M string :=
  let profile_directory := get_profile_directory h in
  let output_directory :=
    PyLib.join (PyLib.join profile_directory ".dependency_cache") (PyStr.str_int library_id) in
  ensure_dir h output_directory ;;
  ret output_directory.

(** [x in [a, b, ...]] for strings. *)
Definition str_in (x : string) (l : list string) : bool :=
  existsb (String.eqb x) l.

Definition build_script (h : host) (settings : Settings) (data : Data) : M string :=
  let input_type := input_type settings in
  let script := script settings in
  temp_working_directory <- get_temp_directory h (final_cache_path data) ;;
  let script_dependencies := script_dependencies settings in
  dependency_cache_directory <- get_dependency_cache_directory h (library_id data) ;;
  let executable := which h input_type in
  let script_extension := "txt" in
  let script_extension := if str_in input_type ["bash"] then "sh" else script_extension in
  resolved <-
    (if str_in input_type ["python"; "python3"] then
       e <- get_executable_venv_python h script_dependencies temp_working_directory
              dependency_cache_directory ;;
       ret ("py", Some e)
     else if str_in input_type ["node"] then
       e <- get_executable_node h script_dependencies temp_working_directory
              dependency_cache_directory ;;
       ret ("js", e)
     else ret (script_extension, executable)) ;;
  let '(script_extension, executable) := resolved in
  let script_path := PyLib.join temp_working_directory ("script." ++ script_extension) in
  emit (WriteFile script_path script) ;;
  mode <- ask (fun tr => st_mode h tr script_path) ;;
  emit (Chmod script_path (Z.lor mode S_IEXEC)) ;;
  ret (PyStr.str_opt executable ++ " " ++ script_path).

(** [variable_map]: a Python [dict] keeps its keys in insertion order, and
    assigning to a key that is present keeps the key's place. *)
Definition dict : Type := list (string * option string).

(** [d[k] = v] *)
Fixpoint dict_set (d : dict) (k : string) (v : option string) : dict :=
  match d with
  | [] => [(k, v)]
  | (k', v') :: d' =>
      if String.eqb k' k then (k', v) :: d' else (k', v') :: dict_set d' k v
  end.

(** [d.get(k)]: [None] for a missing key and for a key bound to [None]. *)
Fixpoint dict_get (d : dict) (k : string) : option string :=
  match d with
  | [] => None
  | (k', v') :: d' => if String.eqb k' k then v' else dict_get d' k
  end.

(** [for key in d] *)
Definition dict_keys (d : dict) : list string := map fst d.

(** The body of the loop [for key in variable_map]. *)
Definition substitute_step (variable_map : dict) (st : string * string) (key : string)
  : string * string :=
  let '(cmd, args) := st in
  let value := dict_get variable_map key in
  let value := match value with Some v => v | None => key end in
  (PyStr.replace key value cmd, PyStr.replace key value args).

(** "Substitute all variables in the cmd and args strings". *)
Definition substitute (variable_map : dict) (cmd args : string) : string * string :=
  fold_left (substitute_step variable_map) (dict_keys variable_map) (cmd, args).

(** "Remove any line-breaks in args":
    [args.replace('\n', ' ').replace('\r', '')] *)
Definition normalize_args (args : string) : string :=
  PyStr.replace (String PyStr.CR "") "" (PyStr.replace (String PyStr.LF "") " " args).

(** The map built before the fan-out decision. *)
Definition base_variable_map (data : Data) (source_size : option Z) : dict :=
  [ ("{library_id}", Some (PyStr.str_int (library_id data)));
    ("{final_cache_path}", Some (final_cache_path data));
    ("{source_file_path}", Some (source_data_abspath data));
    ("{source_file_size}", Some (PyStr.str_opt_int source_size)) ].

(** The loop [for destination_file in data.get('destination_files')]; the
    variables [variable_map], [cmd] and [args] it assigns to are carried from
    one iteration to the next. *)
Fixpoint for_each_destination_file (h : host) (files : list string)
    (variable_map : dict) (cmd args : string) : M unit :=
  match files with
  | [] => ret tt
  | destination_file :: files' =>
      let variable_map := dict_set variable_map "{output_file_path}" (Some destination_file) in
      let '(cmd, args) := substitute variable_map cmd args in
      exec_subprocess h cmd args None ;;
      for_each_destination_file h files' variable_map cmd args
  end.

(** The values of the loop's variables [variable_map], [cmd] and [args] after
    it has gone through [files]: the assignments of the loop body without the
    calls. *)
Fixpoint loop_vars (files : list string) (variable_map : dict) (cmd args : string)
  : dict * string * string :=
  match files with
  | [] => (variable_map, cmd, args)
  | destination_file :: files' =>
      let variable_map := dict_set variable_map "{output_file_path}" (Some destination_file) in
      let '(cmd, args) := substitute variable_map cmd args in
      loop_vars files' variable_map cmd args
  end.

(** The branch taken when [run_for_each_destination_file] is off. *)
Definition run_once (h : host) (data : Data) (variable_map : dict) (cmd args : string)
  : M unit :=
  let files := match destination_files data with Some l => l | None => [] end in
  let variable_map := dict_set variable_map "{output_files}" (Some (PyLib.json_dumps files)) in
  let '(cmd, args) := substitute variable_map cmd args in
  exec_subprocess h cmd args None ;;
  ret tt.

(** The command the hook runs: the configured one, or the script built for
    the configured interpreter. *)
Definition resolve_command (h : host) (settings : Settings) (data : Data) : M string :=
  if negb (String.eqb (input_type settings) "command")
  then build_script h settings data
  else ret (cmd settings).

(** Everything after the gate. *)
Definition run_hook (h : host) (settings : Settings) (data : Data) : M unit :=
  cmd <- resolve_command h settings data ;;
  let args := normalize_args (args settings) in
  let abspath := source_data_abspath data in
  source_size <- ask (fun tr => getsize h tr abspath) ;;
  let variable_map := base_variable_map data source_size in
  if run_for_each_destination_file settings then
    match destination_files data with
    | Some files => for_each_destination_file h files variable_map cmd args
    | None => raise (TypeError "'NoneType' object is not iterable")
    end
  else run_once h data variable_map cmd args.

Definition on_postprocessor_task_results (h : host) (settings : Settings) (data : Data)
  : M unit :=
  if only_on_task_processing_success settings && negb (task_processing_success data)
  then ret tt
  else run_hook h settings data.

(** The hook run from an empty trace. *)
Definition run_plugin (h : host) (settings : Settings) (data : Data) : outcome unit * trace :=
  on_postprocessor_task_results h settings data [].

(* ================================================================== *)
(** ** Reading a trace *)

Definition is_invoke (e : event) : bool :=
  match e with Invoke _ _ _ => true | _ => false end.

Definition is_popen (e : event) : bool :=
  match e with Popen _ _ _ => true | _ => false end.

(** The calls of the executor, in order. *)
Definition invocations (tr : trace) : list event := filter is_invoke tr.

(** The processes spawned, in order. *)
Definition spawned (tr : trace) : list event := filter is_popen tr.

(* ================================================================== *)
(** ** Concrete hosts, settings and payloads used in the examples *)

(** A host where every command exits with [code], nothing is installed, every
    directory exists and the source file has the given size, if any. *)
Definition const_host (code : Z) (size : option Z) : host :=
  {| which := fun _ => None;
     isdir := fun _ _ => true;
     st_mode := fun _ _ => 420%Z;
     getsize := fun _ _ => size;
     returncode := fun _ _ _ => code;
     get_profile_directory := "/config" |}.

(** A host where the process spawned after [k] earlier ones exits with
    status 2 and every other one with status 0. *)
Definition host_failing_at (k : nat) : host :=
  {| which := fun _ => None;
     isdir := fun _ _ => true;
     st_mode := fun _ _ => 420%Z;
     getsize := fun _ _ => None;
     returncode := fun tr _ _ => if (length (spawned tr) =? k)%nat then 2%Z else 0%Z;
     get_profile_directory := "/config" |}.

(** A host with [python3] installed and no directory present yet. *)
Definition python_host : host :=
  {| which := fun p => if String.eqb p "python3" then Some "/usr/bin/python3" else None;
     isdir := fun tr p => existsb (fun e => match e with
                                          | Makedirs q => String.eqb p q
                                          | _ => false end) tr;
     st_mode := fun _ _ => 420%Z;
     getsize := fun _ _ => Some 1024%Z;
     returncode := fun _ _ _ => 0%Z;
     get_profile_directory := "/config" |}.

Definition command_settings (only_on_success per_file : bool) (c a : string) : Settings :=
  {| only_on_task_processing_success := only_on_success;
     run_for_each_destination_file := per_file;
     input_type := "command";
     script := "";
     cmd := c;
     args := a;
     script_dependencies := "" |}.

Definition sample_data (success : bool) (files : option (list string)) : Data :=
  {| final_cache_path := "/cache/task-1/out.mkv";
     library_id := 1;
     task_processing_success := success;
     file_move_processes_success := true;
     destination_files := files;
     source_data_abspath := "/library/in.mkv" |}.

(** The spec's reading of "strip line breaks": every newline becomes one
    space, every carriage return is dropped, every other character is kept. *)
Fixpoint spec_strip_line_breaks (s : string) : string :=
  match s with
  | EmptyString => EmptyString
  | String c s' =>
      if Ascii.eqb c PyStr.LF then String PyStr.SP (spec_strip_line_breaks s')
      else if Ascii.eqb c PyStr.CR then spec_strip_line_breaks s'
      else String c (spec_strip_line_breaks s')
  end.

(** Two payloads that differ at most in [file_move_processes_success]. *)
Definition same_but_file_move (d1 d2 : Data) : Prop :=
  final_cache_path d1 = final_cache_path d2 /\
  library_id d1 = library_id d2 /\
  task_processing_success d1 = task_processing_success d2 /\
  destination_files d1 = destination_files d2 /\
  source_data_abspath d1 = source_data_abspath d2.

(* ================================================================== *)
(** ** The settings form *)

Module Form.

(** One entry of [select_options]. *)
Record select_option : Type := {
  value : string;
  label : string
}.

(** The values a form-settings dictionary holds. *)
Inductive form_value : Type :=
| FStr (s : string)
| FBool (b : bool)
| FOptions (l : list select_option).

(** A form-settings dictionary, keys in insertion order. *)
Definition form : Type := list (string * form_value).

(** [values[k] = v] *)
Fixpoint set (d : form) (k : string) (v : form_value) : form :=
  match d with
  | [] => [(k, v)]
  | (k', v') :: d' =>
      if String.eqb k' k then (k', v) :: d' else (k', v') :: set d' k v
  end.

(** [values.get(k)] *)
Fixpoint get (d : form) (k : string) : option form_value :=
  match d with
  | [] => None
  | (k', v') :: d' => if String.eqb k' k then Some v' else get d' k
  end.

(** [values["select_options"].append(o)] *)
Definition append_option (d : form) (o : select_option) : form :=
  match get d "select_options" with
  | Some (FOptions l) => set d "select_options" (FOptions (l ++ [o])%list)
  | _ => d
  end.

Definition NL : string := String PyStr.LF EmptyString.

(** The values [Settings.__init__] starts from. *)
Definition default_settings : Settings :=
  {| only_on_task_processing_success := false;
     run_for_each_destination_file := false;
     input_type := "command";
     script := "";
     cmd := "";
     args := "";
     script_dependencies := "" |}.

Definition __set_input_type_form_settings (h : host) : form :=
  let values :=
    [ ("label", FStr "Execution Type");
      ("description", FStr "Specify what to execute the defined script with.");
      ("input_type", FStr "select");
      ("select_options", FOptions [ {| value := "command"; label := "Command" |} ]) ] in
  let values :=
    match which h "bash" with
    | Some _ => append_option values {| value := "bash"; label := "Bash Script" |}
    | None => values
    end in
  let python_executable := which h "python3" in
  let values :=
    match python_executable with
    | Some e =>
        append_option values
          {| value := "python3"; label := "Python Script (" ++ e ++ ")" |}
    | None => values
    end in
  let node_executable := which h "node" in
  let values :=
    match node_executable with
    | Some e =>
        append_option values
          {| value := "node"; label := "NodeJS Script (" ++ e ++ ")" |}
    | None => values
    end in
  values.

Definition __set_script_form_settings (settings : Settings) : form :=
  let values :=
    [ ("label", FStr "Script");
      ("description", FStr "Write here the script you wish to run.");
      ("sub_setting", FBool true);
      ("input_type", FStr "textarea") ] in
  if str_in (input_type settings) ["command"]
  then set values "display" (FStr "hidden")
  else values.

Definition __set_cmd_form_settings (settings : Settings) : form :=
  let values :=
    [ ("label", FStr "Command or external script to execute.");
      ("description",
       FStr ("Specify the command or full path to the script that this plugin should execute."
             ++ NL ++ "The specified command or script must be executable."
             ++ NL ++ "Variables may be given in this field. See below for a list of variable types."));
      ("sub_setting", FBool true) ] in
  if negb (str_in (input_type settings) ["command"])
  then set values "display" (FStr "hidden")
  else values.

Definition __set_script_dependencies_form_settings (settings : Settings) : form :=
  let values :=
    [ ("label", FStr "Script Dependencies file");
      ("description", FStr "");
      ("sub_setting", FBool true);
      ("input_type", FStr "textarea") ] in
  let values :=
    if negb (str_in (input_type settings) ["python3"; "node"])
    then set values "display" (FStr "hidden")
    else values in
  if str_in (input_type settings) ["python3"] then
    let values := set values "label" (FStr "Script requirements.txt file") in
    set values "description"
        (FStr ("Specify dependencies in a requirements.txt file."
               ++ NL ++ "These will be installed prior to script execution."))
  else if str_in (input_type settings) ["node"] then
    let values := set values "label" (FStr "Script package.json file") in
    set values "description"
        (FStr ("Specify dependencies in a package.json file."
               ++ NL ++ "These will be installed prior to script execution."))
  else values.

(** A field is hidden when its dictionary has ["display": 'hidden']. *)
Definition hidden (d : form) : bool :=
  match get d "display" with
  | Some (FStr v) => String.eqb v "hidden"
  | _ => false
  end.

(** The [value]s of the entries of [select_options], in order. *)
Definition option_values (d : form) : list string :=
  match get d "select_options" with
  | Some (FOptions l) => map value l
  | _ => []
  end.

End Form.

(* ================================================================== *)
(** ** More ways to read a trace and a string *)

(** Events that change the file system or the environment. *)
Definition is_file_event (e : event) : bool :=
  match e with
  | Makedirs _ | WriteFile _ _ | Chmod _ _ | Putenv _ _ => true
  | Invoke _ _ _ | Popen _ _ _ => false
  end.

(** Every [os.makedirs] in [rest], which follows [pre], was for a path that
    was not a directory at that moment. *)
Fixpoint makedirs_fresh (h : host) (pre rest : trace) : bool :=
  match rest with
  | [] => true
  | e :: rest' =>
      match e with
      | Makedirs p => negb (isdir h pre p)
      | _ => true
      end && makedirs_fresh h (pre ++ [e])%list rest'
  end.

(** Characters between SPACE and [~]. *)
Definition printable (c : ascii) : bool :=
  let n := nat_of_ascii c in ((32 <=? n) && (n <=? 126))%nat.

Fixpoint all_chars (p : ascii -> bool) (s : string) : bool :=
  match s with
  | EmptyString => true
  | String c s' => p c && all_chars p s'
  end.

Definition LBRACE : ascii := ascii_of_nat 123.

(** [key.startswith('{')] *)
Definition starts_with_brace (key : string) : bool :=
  match key with
  | String c _ => Ascii.eqb c LBRACE
  | EmptyString => false
  end.

(** [needle in s], decided. *)
Fixpoint contains (needle s : string) : bool :=
  prefix needle s
  || match s with
     | EmptyString => false
     | String _ s' => contains needle s'
     end.

(** Calls and processes that run in the caller's working directory. *)
Definition is_plain_exec (e : event) : bool :=
  match e with
  | Invoke _ _ None | Popen _ None _ => true
  | _ => false
  end.

Definition is_putenv (e : event) : bool :=
  match e with Putenv _ _ => true | _ => false end.

(** A computation only appends to the trace, and what it appends satisfies
    [Q] (which may look at the trace it started from). *)
Definition grows_by {A : Type} (Q : trace -> trace -> Prop) (m : M A) : Prop :=
  forall tr : trace,
    exists new : trace, snd (m tr) = (tr ++ new)%list /\ Q tr new.

(** Every appended event passes the test [ok]. *)
Definition all_events (ok : event -> bool) (pre new : trace) : Prop :=
  forallb ok new = true.

(** Every appended [os.makedirs] was for a missing directory. *)
Definition fresh_dirs (h : host) (pre new : trace) : Prop :=
  makedirs_fresh h pre new = true.

Definition is_makedirs (e : event) : bool :=
  match e with Makedirs _ => true | _ => false end.

(** The trace ends with a process that exited with a status other than 0,
    and [e] is the exception [exec_subprocess] raises for it. *)
Definition failed_process (e : exn) (tr' : trace) : Prop :=
  exists (pre : trace) (full : string) (cwd : option string) (code : Z),
    tr' = (pre ++ [Popen full cwd code])%list
    /\ code <> 0%Z
    /\ e = Exception (failure_message full).

(** A computation that raises only for a failed process. *)
Definition raises_only_on_failure {A : Type} (m : M A) : Prop :=
  forall (tr : trace) (e : exn) (tr' : trace),
    m tr = (Raise e, tr') -> failed_process e tr'.

(* ================================================================== *)
(** * Properties *)

(** ** Sanity checks of the primitives *)

Example replace_ex1 : PyStr.replace "ab" "X" "aabab-abb" = "aXX-Xb".
Proof. reflexivity. Qed.
Example replace_ex2 : PyStr.replace "aa" "b" "aaaaa" = "bba".
Proof. reflexivity. Qed.
Example replace_ex3 : PyStr.replace "" "-" "abc" = "-a-b-c-".
Proof. reflexivity. Qed.
Example strip_ex : PyStr.strip "  a b  " = "a b".
Proof. reflexivity. Qed.
Example str_ex : PyStr.str_int (-12) = "-12" /\ PyStr.str_int 0 = "0".
Proof. split; reflexivity. Qed.
Example dirname_ex : PyLib.dirname "/tmp/cache/file.mkv" = "/tmp/cache"
  /\ PyLib.dirname "/file" = "/" /\ PyLib.dirname "file" = "" /\ PyLib.dirname "a//b" = "a".
Proof. repeat split; reflexivity. Qed.
Example join_ex : PyLib.join "/a" "b" = "/a/b" /\ PyLib.join "/a/" "b" = "/a/b"
  /\ PyLib.join "" "b" = "b" /\ PyLib.join "/a" "/b" = "/b".
Proof. repeat split; reflexivity. Qed.
Example json_ex :
  let q := String PyLib.DQUOTE EmptyString in
  let b := String PyLib.BACKSLASH EmptyString in
  PyLib.json_dumps ["/a b"; String PyLib.DQUOTE (String (ascii_of_nat 233) (String PyStr.LF "x"))]
  = "[" ++ q ++ "/a b" ++ q ++ ", " ++ q ++ b ++ q ++ b ++ "u00e9" ++ b ++ "nx" ++ q ++ "]".
Proof. reflexivity. Qed.
Example json_empty_ex : PyLib.json_dumps [] = "[]".
Proof. reflexivity. Qed.

(** Scenario A of the spec: a source file of 1024 bytes. *)
Example scenario_A :
  run_plugin (const_host 0 (Some 1024%Z))
             (command_settings false false "echo" "{source_file_size}")
             (sample_data true (Some ["/library/out.mkv"]))
  = (Return tt, [Invoke "echo" "1024" None; Popen "echo 1024" None 0]).
Proof. reflexivity. Qed.

(** Scenario B of the spec: the gate is closed. *)
Example scenario_B :
  run_plugin (const_host 0 (Some 1024%Z))
             (command_settings true false "echo" "{source_file_size}")
             (sample_data false (Some ["/library/out.mkv"]))
  = (Return tt, []).
Proof. reflexivity. Qed.

(** Scenario C of the spec: a Python script and two destination files.  The
    executor is called for the virtual environment, for the dependencies and
    then twice for the script. *)
Example scenario_C :
  let venv_python := "/cache/task-1/postprocessor_script/venv/bin/python3" in
  let workdir := "/cache/task-1/postprocessor_script" in
  invocations (snd (run_plugin python_host
    {| only_on_task_processing_success := false;
       run_for_each_destination_file := true;
       input_type := "python3";
       script := "print(1)";
       cmd := "";
       args := "{output_file_path}";
       script_dependencies := "requests" |}
    (sample_data true (Some ["/a"; "/b"]))))
  = [ Invoke "/usr/bin/python3 -m venv venv" "" (Some workdir);
      Invoke (venv_python ++ " -m pip install -r requirements.txt") "" (Some workdir);
      Invoke (venv_python ++ " " ++ workdir ++ "/script.py") "/a" None;
      Invoke (venv_python ++ " " ++ workdir ++ "/script.py") "/a" None ].
Proof. reflexivity. Qed.

(** Scenario D of the spec: the command exits with status 2. *)
Example scenario_D :
  run_plugin (const_host 2 None)
             (command_settings false false "false" "--now")
             (sample_data true (Some ["/library/out.mkv"]))
  = (Raise (Exception "Failed to execute command: 'false --now'"),
     [Invoke "false" "--now" None; Popen "false --now" None 2]).
Proof. reflexivity. Qed.

(* ================================================================== *)
(** ** Strings *)

Section StringFacts.

Lemma append_nil_r (s : string) : s ++ "" = s.
Proof. induction s as [|c s IH]; simpl; [reflexivity | now rewrite IH]. Qed.

Lemma append_assoc (a b c : string) : (a ++ b) ++ c = a ++ (b ++ c).
Proof. induction a as [|x a IH]; simpl; [reflexivity | now rewrite IH]. Qed.

Lemma prefix_append (a b : string) : prefix a (a ++ b) = true.
Proof.
  induction a as [|x a IH]; simpl.
  - now destruct b.
  - destruct (ascii_dec x x) as [_|N]; [exact IH | now elim N].
Qed.

Lemma prefix_split (a s : string) :
  prefix a s = true -> s = a ++ PyStr.drop (String.length a) s.
Proof.
  revert s; induction a as [|x a IH]; intros s H; simpl.
  - now destruct s.
  - destruct s as [|y s]; simpl in H; [discriminate|].
    destruct (ascii_dec x y) as [->|]; [|discriminate].
    simpl. f_equal. now apply IH.
Qed.

Lemma drop_length_le (n : nat) (s : string) :
  String.length (PyStr.drop n s) <= String.length s.
Proof.
  revert s; induction n as [|n IH]; intros [|c s]; simpl; auto.
Qed.

Lemma occurs_in_middle (a x b : string) : PyStr.occurs_in x (a ++ x ++ b).
Proof. now exists a, b. Qed.

End StringFacts.

(** ** [str.replace] *)

(** Skipping [k] characters and then scanning is scanning what is left. *)
Lemma replace_from_skip (old new : string) (k : nat) (s : string) :
  PyStr.replace_from old new k s = PyStr.replace_from old new 0 (PyStr.drop k s).
Proof.
  revert s; induction k as [|k IH]; intros s.
  - now destruct s.
  - destruct s as [|c s]; [reflexivity|]. simpl PyStr.drop. rewrite <- IH. reflexivity.
Qed.

(** The two equations a reader expects of [replace]: at a match the new text
    is emitted and the scan resumes behind the match; elsewhere the
    character is copied. *)
Lemma replace_match (old new s : string) :
  old <> "" -> prefix old s = true ->
  PyStr.replace old new s
  = new ++ PyStr.replace old new (PyStr.drop (String.length old) s).
Proof.
  intros Hne Hp. unfold PyStr.replace.
  destruct old as [|a o] eqn:E; [now elim Hne|].
  destruct s as [|c s]; [discriminate|].
  cbn [PyStr.replace_from]. rewrite Hp.
  rewrite replace_from_skip. simpl. now rewrite Nat.sub_0_r.
Qed.

Lemma replace_no_match (old new : string) (c : ascii) (s : string) :
  old <> "" -> prefix old (String c s) = false ->
  PyStr.replace old new (String c s) = String c (PyStr.replace old new s).
Proof.
  intros Hne Hp. unfold PyStr.replace.
  destruct old as [|a o] eqn:E; [now elim Hne|].
  cbn [PyStr.replace_from]. now rewrite Hp.
Qed.

Lemma replace_nil (old new : string) : old <> "" -> PyStr.replace old new "" = "".
Proof. intros Hne. unfold PyStr.replace. destruct old; [now elim Hne | reflexivity]. Qed.

(** Replacing a text by itself changes nothing: what the guard
    [if value is None: value = key] amounts to. *)
Lemma replace_same (key s : string) : PyStr.replace key key s = s.
Proof.
  destruct key as [|a k] eqn:E.
  - simpl. induction s as [|c s IH]; simpl; [reflexivity | now rewrite IH].
  - rewrite <- E. assert (Hne : key <> "") by (rewrite E; discriminate).
    clear E a k.
    remember (String.length s) as n eqn:Hn.
    revert s Hn; induction n as [n IH] using lt_wf_ind; intros s Hn.
    destruct s as [|c s]; [now apply replace_nil|].
    destruct (prefix key (String c s)) eqn:Hp.
    + rewrite replace_match by assumption.
      rewrite (IH (String.length (PyStr.drop (String.length key) (String c s)))
                  ) with (s := PyStr.drop (String.length key) (String c s)); trivial.
      * symmetry. now apply prefix_split.
      * subst n. destruct key as [|a k]; [now elim Hne|]. simpl.
        pose proof (drop_length_le (String.length k) s). lia.
    + rewrite replace_no_match by assumption. f_equal.
      apply (IH (String.length s)); [subst n; simpl; lia | reflexivity].
Qed.

(** Replacing a one-character text is a character-wise map. *)
Lemma replace_char (a : ascii) (new : string) (c : ascii) (s : string) :
  PyStr.replace (String a "") new (String c s)
  = if Ascii.eqb a c then new ++ PyStr.replace (String a "") new s
    else String c (PyStr.replace (String a "") new s).
Proof.
  unfold PyStr.replace. cbn [PyStr.replace_from prefix].
  destruct (ascii_dec a c) as [->|N].
  - rewrite Ascii.eqb_refl. destruct s; reflexivity.
  - apply Ascii.eqb_neq in N. now rewrite N.
Qed.

(** ** [str.strip] *)

(** A string strips to a non-empty one exactly when it has a character that
    is not white space. *)
Lemma strip_truthy (s : string) :
  PyStr.truthy (PyStr.strip s) = negb (PyStr.all_space s).
Proof.
  induction s as [|c s IH]; [reflexivity|].
  unfold PyStr.strip in *. simpl.
  destruct (PyStr.isspace c) eqn:Hc; simpl; [exact IH|].
  rewrite Hc. now destruct (PyStr.rstrip s).
Qed.

Lemma strip_blank (s : string) :
  PyStr.all_space s = true <-> PyStr.strip s = "".
Proof.
  pose proof (strip_truthy s) as H.
  destruct (PyStr.strip s), (PyStr.all_space s); simpl in H;
    split; intro; congruence.
Qed.

(** ** The executor *)

Section Executor.

Variable h : host.

(** Nothing is spawned for a blank command line. *)
Lemma exec_subprocess_blank (c a : string) (cwd : option string) (tr : trace) :
  PyStr.all_space (full_command_of c a) = true ->
  exec_subprocess h c a cwd tr = (Return None, tr ++ [Invoke c a cwd])%list.
Proof.
  intros Hb. unfold exec_subprocess, bind, emit. cbn.
  rewrite strip_truthy, Hb. reflexivity.
Qed.

(** Otherwise one process is spawned and its exit status decides. *)
Lemma exec_subprocess_spawn (c a : string) (cwd : option string) (tr : trace) :
  PyStr.all_space (full_command_of c a) = false ->
  let full := full_command_of c a in
  let tr1 := (tr ++ [Invoke c a cwd])%list in
  let code := returncode h tr1 full cwd in
  exec_subprocess h c a cwd tr
  = (if (code =? 0)%Z then Return (Some true)
     else Raise (Exception (failure_message full)),
     (tr1 ++ [Popen full cwd code])%list).
Proof.
  intros Hb. unfold exec_subprocess, bind, emit, ask. cbn.
  rewrite strip_truthy, Hb. cbn.
  now destruct (Z.eqb _ 0).
Qed.

(** In both cases the trace grows by the call and at most one process. *)
Lemma exec_subprocess_trace (c a : string) (cwd : option string) (tr : trace) :
  exists tail : trace,
    snd (exec_subprocess h c a cwd tr) = (tr ++ Invoke c a cwd :: tail)%list
    /\ invocations tail = [].
Proof.
  destruct (PyStr.all_space (full_command_of c a)) eqn:Hb.
  - exists []. now rewrite exec_subprocess_blank.
  - eexists [Popen _ _ _]. rewrite exec_subprocess_spawn by assumption.
    cbn. rewrite <- app_assoc. split; reflexivity.
Qed.

End Executor.

Lemma spawned_app (t1 t2 : trace) :
  spawned (t1 ++ t2)%list = (spawned t1 ++ spawned t2)%list.
Proof. apply filter_app. Qed.

Lemma invocations_app (t1 t2 : trace) :
  invocations (t1 ++ t2)%list = (invocations t1 ++ invocations t2)%list.
Proof. apply filter_app. Qed.

(* ================================================================== *)
(** ** The subprocess executor (claims C5, C8, C10) *)

(** The composed command line is never the empty string: it always holds
    the space that joins the command and the arguments. *)
Lemma full_command_nonempty (c a : string) : full_command_of c a <> "".
Proof. unfold full_command_of. destruct c; discriminate. Qed.

(** C5.  For every call of [exec_subprocess] (the composed command line is
    never empty), with the exit status being the one the host gives the
    child for this command line and directory at that moment: when the
    composed line passes the guard (it has a character that is not white
    space) the child is run, the call returns [True] exactly when that
    status is 0, and for every other status it raises an exception whose
    message contains the whole composed command line; when the line is
    blank no child is run and [True] is not returned. *)
Theorem exec_subprocess_exit_classification
    (h : host) (c a : string) (cwd : option string) (tr : trace) :
  let full := full_command_of c a in
  let code := returncode h (tr ++ [Invoke c a cwd])%list full cwd in
  let r := exec_subprocess h c a cwd tr in
  full <> ""
  /\ (PyStr.truthy (PyStr.strip full) = true ->
      snd r = (tr ++ [Invoke c a cwd; Popen full cwd code])%list
      /\ (fst r = Return (Some true) <-> code = 0%Z)
      /\ (code <> 0%Z ->
          fst r = Raise (Exception (failure_message full))
          /\ PyStr.occurs_in full (failure_message full)))
  /\ (PyStr.truthy (PyStr.strip full) = false ->
      r = (Return None, (tr ++ [Invoke c a cwd])%list)).
Proof.
  cbv zeta. split; [apply full_command_nonempty|]. split.
  - intros Hg. rewrite strip_truthy in Hg. apply negb_true_iff in Hg.
    rewrite exec_subprocess_spawn by assumption. cbv zeta. cbn [fst snd].
    split; [now rewrite <- app_assoc|].
    destruct (Z.eqb_spec (returncode h (tr ++ [Invoke c a cwd])%list
                            (full_command_of c a) cwd) 0) as [E|N]; split.
    + now split.
    + intros N. now elim N.
    + split; [discriminate | intros E; now elim N].
    + intros _. split; [reflexivity|].
      unfold failure_message. apply occurs_in_middle.
  - intros Hg. rewrite strip_truthy in Hg. apply negb_false_iff in Hg.
    now apply exec_subprocess_blank.
Qed.

(** Scenario D of the spec (the command exits with status 2), and a command
    that exits with status 0. *)
Lemma exec_subprocess_exit_classification_witness :
  (snd (exec_subprocess (const_host 2 None) "exit" "2" None [])
   = [Invoke "exit" "2" None; Popen "exit 2" None 2]
   /\ fst (exec_subprocess (const_host 2 None) "exit" "2" None [])
      = Raise (Exception "Failed to execute command: 'exit 2'")
   /\ PyStr.occurs_in "exit 2" "Failed to execute command: 'exit 2'")
  /\ (snd (exec_subprocess (const_host 0 None) "true" "" None [])
      = [Invoke "true" "" None; Popen "true " None 0]
      /\ fst (exec_subprocess (const_host 0 None) "true" "" None []) = Return (Some true)).
Proof.
  destruct (exec_subprocess_exit_classification (const_host 2 None) "exit" "2" None [])
    as (_ & Hrun2 & _).
  destruct (Hrun2 eq_refl) as (Hsnd2 & _ & Hfail2).
  destruct (exec_subprocess_exit_classification (const_host 0 None) "true" "" None [])
    as (_ & Hrun0 & _).
  destruct (Hrun0 eq_refl) as (Hsnd0 & Hiff0 & _).
  split.
  - split; [exact Hsnd2|]. apply Hfail2. discriminate.
  - split; [exact Hsnd0|]. apply Hiff0. reflexivity.
Defined.

(** C8.  When the command and the arguments joined by a space are empty or
    white space only, [exec_subprocess] spawns no process and raises
    nothing: it returns [None] and the trace gains only the record of the
    call. *)
Theorem exec_subprocess_blank_is_noop
    (h : host) (c a : string) (cwd : option string) (tr : trace) :
  PyStr.all_space (full_command_of c a) = true ->
  fst (exec_subprocess h c a cwd tr) = Return None
  /\ spawned (snd (exec_subprocess h c a cwd tr)) = spawned tr
  /\ snd (exec_subprocess h c a cwd tr) = (tr ++ [Invoke c a cwd])%list.
Proof.
  intros Hb. rewrite exec_subprocess_blank by assumption. cbn [fst snd].
  repeat split. rewrite spawned_app. cbn. apply app_nil_r.
Qed.

Lemma exec_subprocess_blank_is_noop_witness :
  PyStr.all_space (full_command_of "" "  ") = true
  /\ fst (exec_subprocess (const_host 2 None) "" "  " None []) = Return None
  /\ spawned (snd (exec_subprocess (const_host 2 None) "" "  " None [])) = []
  /\ snd (exec_subprocess (const_host 2 None) "" "  " None []) = [Invoke "" "  " None].
Proof.
  split; [reflexivity|].
  apply (exec_subprocess_blank_is_noop (const_host 2 None) "" "  " None []).
  reflexivity.
Defined.

(** C10.  The guard looks at the joined string, not at the command alone:
    with an empty command and arguments that are not blank, a shell process
    is spawned on the joined string, which is a space followed by the
    arguments, and its exit status is classified as usual. *)
Theorem exec_subprocess_empty_cmd_spawns_args
    (h : host) (a : string) (cwd : option string) (tr : trace) :
  PyStr.all_space a = false ->
  exists code : Z,
    exec_subprocess h "" a cwd tr
    = (if (code =? 0)%Z then Return (Some true)
       else Raise (Exception (failure_message (" " ++ a))),
       (tr ++ [Invoke "" a cwd; Popen (" " ++ a) cwd code])%list).
Proof.
  intros Ha.
  assert (Hb : PyStr.all_space (full_command_of "" a) = false) by exact Ha.
  rewrite exec_subprocess_spawn by assumption. cbv zeta.
  eexists. rewrite <- app_assoc. reflexivity.
Qed.

Lemma exec_subprocess_empty_cmd_spawns_args_witness :
  PyStr.all_space "ls -l" = false
  /\ exists code : Z,
       exec_subprocess (const_host 0 None) "" "ls -l" None []
       = (if (code =? 0)%Z then Return (Some true)
          else Raise (Exception (failure_message " ls -l")),
          [Invoke "" "ls -l" None; Popen " ls -l" None code]).
Proof.
  split; [reflexivity|].
  apply (exec_subprocess_empty_cmd_spawns_args (const_host 0 None) "ls -l" None []).
  reflexivity.
Defined.

(* ================================================================== *)
(** ** The gate and the payload (claims C4, C9) *)

(** C4.  With [only_on_task_processing_success] set and
    [task_processing_success] false the hook returns at once: the trace is
    left as it was, so no process is spawned, no executor call is made and
    no file or directory is written. *)
Theorem success_gate_no_side_effects
    (h : host) (settings : Settings) (data : Data) (tr : trace) :
  only_on_task_processing_success settings = true ->
  task_processing_success data = false ->
  on_postprocessor_task_results h settings data tr = (Return tt, tr).
Proof.
  intros Hs Hd. unfold on_postprocessor_task_results. now rewrite Hs, Hd.
Qed.

Lemma success_gate_no_side_effects_witness :
  run_plugin python_host
    {| only_on_task_processing_success := true;
       run_for_each_destination_file := true;
       input_type := "python3";
       script := "print(1)";
       cmd := "";
       args := "{output_file_path}";
       script_dependencies := "requests" |}
    (sample_data false (Some ["/a"; "/b"]))
  = (Return tt, []).
Proof.
  apply (success_gate_no_side_effects python_host); reflexivity.
Defined.

(** C9.  Two payloads that differ only in [file_move_processes_success]
    make the hook behave the same from every trace: same gate decision, same
    events, same result or error. *)
Theorem file_move_processes_success_not_consulted
    (h : host) (settings : Settings) (d1 d2 : Data) (tr : trace) :
  same_but_file_move d1 d2 ->
  on_postprocessor_task_results h settings d1 tr
  = on_postprocessor_task_results h settings d2 tr.
Proof.
  destruct d1 as [p1 l1 t1 m1 f1 a1], d2 as [p2 l2 t2 m2 f2 a2].
  unfold same_but_file_move; cbn. intros (-> & -> & -> & -> & ->).
  reflexivity.
Qed.

Lemma file_move_processes_success_not_consulted_witness :
  same_but_file_move
    (sample_data true (Some ["/a"]))
    {| final_cache_path := "/cache/task-1/out.mkv";
       library_id := 1;
       task_processing_success := true;
       file_move_processes_success := false;
       destination_files := Some ["/a"];
       source_data_abspath := "/library/in.mkv" |}
  /\ run_plugin (const_host 0 None) (command_settings true false "echo" "{output_files}")
        (sample_data true (Some ["/a"]))
      = run_plugin (const_host 0 None) (command_settings true false "echo" "{output_files}")
          {| final_cache_path := "/cache/task-1/out.mkv";
             library_id := 1;
             task_processing_success := true;
             file_move_processes_success := false;
             destination_files := Some ["/a"];
             source_data_abspath := "/library/in.mkv" |}.
Proof.
  split; [repeat split|].
  apply (file_move_processes_success_not_consulted (const_host 0 None)).
  repeat split.
Defined.

(* ================================================================== *)
(** ** Argument normalisation (claim C3) *)

Lemma normalize_args_cons (c : ascii) (s : string) :
  normalize_args (String c s)
  = if Ascii.eqb c PyStr.LF then String PyStr.SP (normalize_args s)
    else if Ascii.eqb c PyStr.CR then normalize_args s
    else String c (normalize_args s).
Proof.
  unfold normalize_args. rewrite (replace_char PyStr.LF).
  rewrite (Ascii.eqb_sym c PyStr.LF), (Ascii.eqb_sym c PyStr.CR).
  destruct (Ascii.eqb PyStr.LF c) eqn:E1.
  - change (" " ++ ?x) with (String PyStr.SP x). now rewrite replace_char.
  - rewrite replace_char. now destruct (Ascii.eqb PyStr.CR c).
Qed.

(** The hook, past its gate and in batch mode, is one run of [run_once] on
    the resolved command and the normalised arguments. *)
Lemma hook_batch (h : host) (settings : Settings) (data : Data) (tr : trace)
    (c : string) (tr0 : trace) :
  only_on_task_processing_success settings && negb (task_processing_success data) = false ->
  run_for_each_destination_file settings = false ->
  resolve_command h settings data tr = (Return c, tr0) ->
  on_postprocessor_task_results h settings data tr
  = run_once h data (base_variable_map data (getsize h tr0 (source_data_abspath data)))
             c (normalize_args (args settings)) tr0.
Proof.
  intros Hg Hm Hr. unfold on_postprocessor_task_results, run_hook, bind, ask.
  now rewrite Hg, Hr, Hm.
Qed.

(** The same for per-file mode and the loop. *)
Lemma hook_per_file (h : host) (settings : Settings) (data : Data) (tr : trace)
    (c : string) (tr0 : trace) (files : list string) :
  only_on_task_processing_success settings && negb (task_processing_success data) = false ->
  run_for_each_destination_file settings = true ->
  destination_files data = Some files ->
  resolve_command h settings data tr = (Return c, tr0) ->
  on_postprocessor_task_results h settings data tr
  = for_each_destination_file h files
      (base_variable_map data (getsize h tr0 (source_data_abspath data)))
      c (normalize_args (args settings)) tr0.
Proof.
  intros Hg Hm Hf Hr. unfold on_postprocessor_task_results, run_hook, bind, ask.
  now rewrite Hg, Hr, Hm, Hf.
Qed.

(** In batch mode the last substitution is the one of [{output_files}]. *)
Lemma substitute_output_files (data : Data) (size : option Z) (json c a : string) :
  substitute (dict_set (base_variable_map data size) "{output_files}" (Some json)) c a
  = (PyStr.replace "{output_files}" json (fst (substitute (base_variable_map data size) c a)),
     PyStr.replace "{output_files}" json (snd (substitute (base_variable_map data size) c a))).
Proof. reflexivity. Qed.

Lemma run_once_trace (h : host) (data : Data) (vm : dict) (c a : string) (tr : trace) :
  let files := match destination_files data with Some l => l | None => [] end in
  let ca := substitute (dict_set vm "{output_files}" (Some (PyLib.json_dumps files))) c a in
  exists tail : trace,
    snd (run_once h data vm c a tr) = (tr ++ Invoke (fst ca) (snd ca) None :: tail)%list
    /\ invocations tail = [].
Proof.
  cbv zeta. unfold run_once.
  destruct (substitute _ c a) as [c1 a1]. cbn [fst snd].
  destruct (exec_subprocess_trace h c1 a1 None tr) as (tail & Ht & Hi).
  exists tail. split; [|exact Hi].
  unfold bind. destruct (exec_subprocess h c1 a1 None tr) as [[r|e] t]; exact Ht.
Qed.

Lemma normalize_args_spec (s : string) : normalize_args s = spec_strip_line_breaks s.
Proof.
  induction s as [|c s IH]; [reflexivity|].
  rewrite normalize_args_cons. simpl. now rewrite IH.
Qed.

Lemma spec_strip_line_breaks_clean (s : string) :
  PyStr.has_char PyStr.LF (spec_strip_line_breaks s) = false
  /\ PyStr.has_char PyStr.CR (spec_strip_line_breaks s) = false.
Proof.
  induction s as [|c s [IH1 IH2]]; [now split|]. simpl.
  destruct (Ascii.eqb c PyStr.LF) eqn:E1; [now split|].
  destruct (Ascii.eqb c PyStr.CR) eqn:E2; [now split|].
  simpl. now rewrite E1, E2.
Qed.

(** C3.  The arguments the hook hands to substitution are the configured
    ones with every newline replaced by one space and every carriage return
    stripped, all other characters kept in order; no newline and no carriage
    return of the configured arguments is left.  This happens before any
    substitution: once the gate is passed and the command resolved, the hook
    is the fan-out (the loop over the files, or the single run) applied to
    the normalised arguments. *)
Theorem args_normalized_before_substitution (settings : Settings) :
  let a := normalize_args (args settings) in
  a = spec_strip_line_breaks (args settings)
  /\ PyStr.has_char PyStr.LF a = false
  /\ PyStr.has_char PyStr.CR a = false
  /\ forall (h : host) (data : Data) (tr : trace) (c : string) (tr0 : trace),
       only_on_task_processing_success settings && negb (task_processing_success data)
       = false ->
       resolve_command h settings data tr = (Return c, tr0) ->
       let vm := base_variable_map data (getsize h tr0 (source_data_abspath data)) in
       on_postprocessor_task_results h settings data tr
       = if run_for_each_destination_file settings
         then match destination_files data with
              | Some files => for_each_destination_file h files vm c a tr0
              | None => (Raise (TypeError "'NoneType' object is not iterable"), tr0)
              end
         else run_once h data vm c a tr0.
Proof.
  intros a. subst a.
  destruct (spec_strip_line_breaks_clean (args settings)) as [H1 H2].
  rewrite <- normalize_args_spec in H1, H2.
  split; [apply normalize_args_spec|]. split; [exact H1|]. split; [exact H2|].
  intros h data tr c tr0 Hg Hr vm.
  destruct (run_for_each_destination_file settings) eqn:Hm.
  - destruct (destination_files data) as [files|] eqn:Hf.
    + now apply hook_per_file.
    + unfold on_postprocessor_task_results, run_hook, bind, ask.
      now rewrite Hg, Hr, Hm, Hf.
  - now apply hook_batch.
Qed.

Lemma args_normalized_before_substitution_witness :
  let settings :=
    command_settings false false "echo"
      (String "a" (String PyStr.CR (String PyStr.LF (String "b" (String PyStr.LF "{library_id}"))))) in
  let data := sample_data true (Some ["/a"]) in
  normalize_args (args settings) = "a b {library_id}"
  /\ run_plugin (const_host 0 None) settings data
     = (Return tt, [Invoke "echo" "a b 1" None; Popen "echo a b 1" None 0]).
Proof.
  cbv zeta.
  pose proof (args_normalized_before_substitution
                (command_settings false false "echo"
                   (String "a" (String PyStr.CR (String PyStr.LF
                      (String "b" (String PyStr.LF "{library_id}")))))))
    as (H1 & _ & _ & H4).
  split; [exact H1|].
  exact (H4 (const_host 0 None) (sample_data true (Some ["/a"])) [] "echo" []
            eq_refl eq_refl).
Defined.

(* ================================================================== *)
(** ** Batch mode (claim C7) *)

(** Batch mode alone does not give an execution: with the success gate
    closed the hook calls the executor zero times, so "one execution for
    every invocation in batch mode" does not hold. *)
Lemma batch_mode_gate_closed_counterexample :
  run_for_each_destination_file (command_settings true false "echo" "{output_files}") = false
  /\ invocations (snd (run_plugin (const_host 0 None)
                         (command_settings true false "echo" "{output_files}")
                         (sample_data false (Some ["/a"])))) = []
  /\ ~ (forall (h : host) (settings : Settings) (data : Data),
          run_for_each_destination_file settings = false ->
          length (invocations (snd (run_plugin h settings data))) = 1).
Proof.
  split; [reflexivity|]. split; [reflexivity|].
  intros H.
  specialize (H (const_host 0 None) (command_settings true false "echo" "{output_files}")
                (sample_data false (Some ["/a"])) eq_refl).
  discriminate H.
Qed.

(** Nor is the final run the only execution when a script is provisioned:
    for a Python script the executor is called three times (virtual
    environment, dependencies, script). *)
Example batch_mode_python_three_calls :
  length (invocations (snd (run_plugin python_host
    {| only_on_task_processing_success := false;
       run_for_each_destination_file := false;
       input_type := "python3";
       script := "print(1)";
       cmd := "";
       args := "{output_files}";
       script_dependencies := "requests" |}
    (sample_data true (Some ["/a"; "/b"]))))) = 3.
Proof. reflexivity. Qed.

(** C7.  With [run_for_each_destination_file] off, an invocation that passes
    the gate and resolves its command makes exactly one call of the executor
    after that, whatever the list of destination files is: the trace is the
    one of command resolution, then that call, then at most the process it
    spawns.  The call's command and arguments are the configured ones with
    the four base variables substituted and then [{output_files}] replaced
    by the JSON array of the whole list, which is [[]] when the list is
    absent or empty. *)
Theorem batch_mode_single_execution
    (h : host) (settings : Settings) (data : Data) (tr : trace)
    (c : string) (tr0 : trace) :
  only_on_task_processing_success settings && negb (task_processing_success data) = false ->
  run_for_each_destination_file settings = false ->
  resolve_command h settings data tr = (Return c, tr0) ->
  let files := match destination_files data with Some l => l | None => [] end in
  let vm := base_variable_map data (getsize h tr0 (source_data_abspath data)) in
  let ca := substitute vm c (normalize_args (args settings)) in
  let c' := PyStr.replace "{output_files}" (PyLib.json_dumps files) (fst ca) in
  let a' := PyStr.replace "{output_files}" (PyLib.json_dumps files) (snd ca) in
  (exists tail : trace,
      snd (on_postprocessor_task_results h settings data tr)
      = (tr0 ++ Invoke c' a' None :: tail)%list
      /\ invocations tail = [])
  /\ (destination_files data = None \/ destination_files data = Some [] ->
      PyLib.json_dumps files = "[]").
Proof.
  intros Hg Hm Hr files vm ca c' a'. split.
  - rewrite (hook_batch h settings data tr c tr0 Hg Hm Hr).
    destruct (run_once_trace h data vm c (normalize_args (args settings)) tr0)
      as (tail & Ht & Hi).
    exists tail. split; [|exact Hi].
    fold vm. rewrite Ht. fold files. unfold vm at 1 2.
    rewrite substitute_output_files. reflexivity.
  - subst files. intros [-> | ->]; reflexivity.
Qed.

Lemma batch_mode_single_execution_witness :
  let q := String PyLib.DQUOTE EmptyString in
  (exists tail : trace,
      snd (run_plugin (const_host 0 None)
             (command_settings false false "echo {output_files}" "{library_id}")
             (sample_data true (Some ["/a"; "/b"])))
      = Invoke ("echo [" ++ q ++ "/a" ++ q ++ ", " ++ q ++ "/b" ++ q ++ "]") "1" None :: tail
      /\ invocations tail = [])
  /\ (exists tail : trace,
      snd (run_plugin (const_host 0 None)
             (command_settings false false "echo {output_files}" "{library_id}")
             (sample_data true None))
      = Invoke "echo []" "1" None :: tail
      /\ invocations tail = []).
Proof.
  cbv zeta. split.
  - exact (proj1 (batch_mode_single_execution (const_host 0 None)
             (command_settings false false "echo {output_files}" "{library_id}")
             (sample_data true (Some ["/a"; "/b"])) [] "echo {output_files}" []
             eq_refl eq_refl eq_refl)).
  - exact (proj1 (batch_mode_single_execution (const_host 0 None)
             (command_settings false false "echo {output_files}" "{library_id}")
             (sample_data true None) [] "echo {output_files}" []
             eq_refl eq_refl eq_refl)).
Defined.

(* ================================================================== *)
(** ** Per-file mode (claims C1, C6) *)

Section PerFile.

Variable h : host.



(** A loop that returns has called the executor once per file. *)
Lemma for_each_return_invocations (l : list string) (vm : dict) (c a : string)
    (tr tr1 : trace) :
  for_each_destination_file h l vm c a tr = (Return tt, tr1) ->
  length (invocations tr1) = length (invocations tr) + length l.
Proof.
  revert vm c a tr. induction l as [|f l IH]; intros vm c a tr; cbn.
  - intros [= <-]. lia.
  - destruct (substitute _ c a) as [c1 a1]. unfold bind.
    destruct (exec_subprocess_trace h c1 a1 None tr) as (tail & Ht & Hi).
    destruct (exec_subprocess h c1 a1 None tr) as [[r|e1] t]; [|discriminate].
    intros H. apply IH in H. cbn in Ht. subst t.
    rewrite invocations_app, length_app in H.
    change (invocations (Invoke c1 a1 None :: tail))
      with (Invoke c1 a1 None :: invocations tail) in H.
    rewrite Hi in H. cbn in H. lia.
Qed.


End PerFile.



(** The first half of C1 as the code has it: when no run fails, the hook in
    per-file mode calls the executor once per destination file. *)
Lemma per_file_once_per_file
    (h : host) (settings : Settings) (data : Data) (tr : trace) (c : string)
    (tr0 tr1 : trace) (files : list string) :
  only_on_task_processing_success settings && negb (task_processing_success data) = false ->
  run_for_each_destination_file settings = true ->
  destination_files data = Some files ->
  resolve_command h settings data tr = (Return c, tr0) ->
  on_postprocessor_task_results h settings data tr = (Return tt, tr1) ->
  length (invocations tr1) = length (invocations tr0) + length files.
Proof.
  intros Hg Hm Hf Hr. rewrite (hook_per_file h settings data tr c tr0 _ Hg Hm Hf Hr).
  apply for_each_return_invocations.
Qed.

(** C1.  The code at the claim's own setting: two destination files, and
    [{output_file_path}] in the command and in the arguments.  The executor
    is called twice, in order, but the second call carries the first file's
    path again: the loop assigns the substituted strings back to [cmd] and
    [args], so from the second iteration on no placeholder is left for the
    current file to be bound to. *)
Theorem per_file_second_iteration_reuses_first_path :
  run_plugin (const_host 0 None)
    (command_settings false true "echo {output_file_path}" "--out={output_file_path}")
    (sample_data true (Some ["/a"; "/b"]))
  = (Return tt,
     [Invoke "echo /a" "--out=/a" None; Popen "echo /a --out=/a" None 0;
      Invoke "echo /a" "--out=/a" None; Popen "echo /a --out=/a" None 0])
  /\ loop_vars ["/a"; "/b"]
       (base_variable_map (sample_data true (Some ["/a"; "/b"])) None)
       "echo {output_file_path}" "--out={output_file_path}"
     = ([ ("{library_id}", Some "1");
          ("{final_cache_path}", Some "/cache/task-1/out.mkv");
          ("{source_file_path}", Some "/library/in.mkv");
          ("{source_file_size}", Some "None");
          ("{output_file_path}", Some "/b") ],
        "echo /a", "--out=/a").
Proof. split; reflexivity. Qed.

(* ================================================================== *)
(** ** Substitution of missing values (claim C2) *)

(** The guard of the substitution loop: a key whose value is [None] (or that
    is missing) leaves the command and the arguments as they are. *)
Lemma substitute_step_null_entry (vm : dict) (key c a : string) :
  dict_get vm key = None ->
  substitute_step vm (c, a) key = (c, a).
Proof.
  intros H. unfold substitute_step. rewrite H. now rewrite !replace_same.
Qed.

(** No entry of the map the hook builds is [None]: every value has gone
    through [str] or [format]. *)
Lemma base_variable_map_no_null (data : Data) (size : option Z) (k : string) (v : option string) :
  In (k, v) (base_variable_map data size) -> v <> None.
Proof.
  unfold base_variable_map. cbn.
  intros [H|[H|[H|[H|[]]]]]; inversion H; discriminate.
Qed.

(** C2.  The code at the claim's own setting: the source file does not
    exist, so [source_size] is [None]; the map binds [{source_file_size}] to
    [str(None)], the text [None], and that text is what replaces the token
    in the arguments.  The guard for [None] values never sees this entry. *)
Theorem missing_source_size_is_substituted_as_None :
  (forall data : Data,
      dict_get (base_variable_map data None) "{source_file_size}" = Some "None")
  /\ run_plugin (const_host 0 None)
       (command_settings false false "echo" "{source_file_size}")
       (sample_data true (Some ["/library/out.mkv"]))
     = (Return tt, [Invoke "echo" "None" None; Popen "echo None" None 0]).
Proof. split; reflexivity. Qed.

(* ================================================================== *)
(** * Further properties of the code *)

(** ** Occurrences and [str.replace] *)

Lemma contains_spec (needle s : string) :
  contains needle s = true <-> PyStr.occurs_in needle s.
Proof.
  split.
  - induction s as [|c s IH]; cbn [contains]; intros H.
    + rewrite orb_false_r in H. exists "", (PyStr.drop (String.length needle) "").
      now apply prefix_split.
    + apply orb_true_iff in H as [H|H].
      * exists "", (PyStr.drop (String.length needle) (String c s)).
        now apply prefix_split.
      * destruct (IH H) as (a & b & ->). now exists (String c a), b.
  - intros (a & b & ->). induction a as [|c a IH]; cbn [append].
    + destruct (needle ++ b) eqn:E; cbn [contains]; rewrite <- E;
        now rewrite prefix_append.
    + cbn [contains]. rewrite IH. apply orb_true_r.
Qed.

(** A text that does not occur is not replaced. *)
Lemma replace_no_occurrence (old new s : string) :
  contains old s = false -> PyStr.replace old new s = s.
Proof.
  destruct old as [|x o] eqn:E.
  - destruct s; discriminate.
  - rewrite <- E. assert (Hne : old <> "") by (rewrite E; discriminate). clear E x o.
    induction s as [|c s IH]; intros H.
    + now apply replace_nil.
    + cbn [contains] in H. apply orb_false_iff in H as [Hp Hc].
      rewrite replace_no_match by assumption. now rewrite IH.
Qed.

(** A key that starts with a brace does not occur in a text without one. *)
Lemma brace_key_absent (key s : string) :
  starts_with_brace key = true -> PyStr.has_char LBRACE s = false ->
  contains key s = false.
Proof.
  intros Hk. destruct key as [|x key]; [discriminate|]. cbn in Hk.
  apply Ascii.eqb_eq in Hk. subst x.
  induction s as [|c s IH]; [reflexivity|].
  cbn [PyStr.has_char contains prefix]. intros H.
  apply orb_false_iff in H as [Hc Hs]. rewrite (IH Hs), orb_false_r.
  destruct (ascii_dec _ c) as [E|]; [|reflexivity].
  subst c. cbv in Hc. discriminate Hc.
Qed.

(** ** The substitution loop *)

Section Substitute.

Variable vm : dict.

Lemma substitute_fold_fst (l : list string) (c a a' : string) :
  fst (fold_left (substitute_step vm) l (c, a))
  = fst (fold_left (substitute_step vm) l (c, a')).
Proof.
  revert c a a'. induction l as [|k l IH]; intros c a a'; [reflexivity|].
  cbn [fold_left substitute_step]. apply IH.
Qed.

Lemma substitute_fold_swap (l : list string) (c a : string) :
  snd (fold_left (substitute_step vm) l (c, a))
  = fst (fold_left (substitute_step vm) l (a, c)).
Proof.
  revert c a. induction l as [|k l IH]; intros c a; [reflexivity|].
  cbn [fold_left substitute_step]. apply IH.
Qed.

Lemma substitute_fold_fixed (l : list string) (c a : string) :
  forallb (fun key => negb (contains key c)) l = true ->
  fst (fold_left (substitute_step vm) l (c, a)) = c.
Proof.
  revert a. induction l as [|k l IH]; intros a H; [reflexivity|].
  cbn [forallb] in H. apply andb_true_iff in H as [Hk Hl].
  apply negb_true_iff in Hk.
  cbn [fold_left substitute_step]. rewrite (replace_no_occurrence _ _ _ Hk).
  now apply IH.
Qed.

End Substitute.

(** X1.  Substitution treats the command and the arguments alike and
    independently: what it makes of one string does not depend on the other,
    and a string gets the same result in either position. *)
Theorem substitute_uniform (vm : dict) (c a other : string) :
  fst (substitute vm c a) = fst (substitute vm c other)
  /\ snd (substitute vm a c) = snd (substitute vm other c)
  /\ snd (substitute vm a c) = fst (substitute vm c a).
Proof.
  unfold substitute. repeat split.
  - apply substitute_fold_fst.
  - rewrite !substitute_fold_swap. apply substitute_fold_fst.
  - apply substitute_fold_swap.
Qed.

(** X2.  A string in which none of the map's placeholders occurs comes out
    of substitution unchanged, in the command position and in the argument
    position, whatever the values are. *)
Theorem substitute_without_placeholders (vm : dict) (s other : string) :
  forallb (fun key => negb (contains key s)) (dict_keys vm) = true ->
  fst (substitute vm s other) = s /\ snd (substitute vm other s) = s.
Proof.
  intros H. unfold substitute. split.
  - now apply substitute_fold_fixed.
  - rewrite substitute_fold_swap. now apply substitute_fold_fixed.
Qed.

Lemma substitute_without_placeholders_witness :
  fst (substitute (base_variable_map (sample_data true None) None)
                  "rm -f {output_file_path} {unknown}" "{library_id}")
  = "rm -f {output_file_path} {unknown}".
Proof.
  refine (proj1 (substitute_without_placeholders
                   (base_variable_map (sample_data true None) None)
                   "rm -f {output_file_path} {unknown}" "{library_id}" _)).
  vm_compute. reflexivity.
Defined.

(** ** The variable map in the two modes *)

Lemma last_cons_default {A : Type} (x d : A) (l : list A) : last (x :: l) d = last l x.
Proof.
  revert x d. induction l as [|y l IH]; intros x d; [reflexivity|].
  change (last (x :: y :: l) d) with (last (y :: l) d).
  rewrite (IH y d). symmetry. apply IH.
Qed.

Lemma loop_vars_map (data : Data) (size : option Z) (f : string) (rest : list string)
    (c a : string) :
  fst (fst (loop_vars rest
              (base_variable_map data size ++ [("{output_file_path}", Some f)])%list c a))
  = (base_variable_map data size ++ [("{output_file_path}", Some (last rest f))])%list.
Proof.
  revert f c a. induction rest as [|g rest IH]; intros f c a; [reflexivity|].
  cbn [loop_vars].
  change (dict_set (base_variable_map data size ++ [("{output_file_path}", Some f)])%list
                   "{output_file_path}" (Some g))
    with (base_variable_map data size ++ [("{output_file_path}", Some g)])%list.
  destruct (substitute _ c a) as [c1 a1]. rewrite IH.
  now rewrite last_cons_default.
Qed.

(** X3.  The two fan-out placeholders exclude each other.  After the loop of
    per-file mode has gone through one or more files the map holds the four
    base keys and [{output_file_path}], in this order and once each, bound
    to the latest file, and never [{output_files}]; the map of batch mode
    holds the four base keys and [{output_files}] and never
    [{output_file_path}]. *)
Theorem fan_out_placeholders_exclusive
    (data : Data) (size : option Z) (f : string) (rest : list string)
    (c a json : string) :
  let per_file := fst (fst (loop_vars (f :: rest) (base_variable_map data size) c a)) in
  let batch := dict_set (base_variable_map data size) "{output_files}" (Some json) in
  dict_keys per_file
  = ["{library_id}"; "{final_cache_path}"; "{source_file_path}"; "{source_file_size}";
     "{output_file_path}"]
  /\ dict_get per_file "{output_file_path}" = Some (last rest f)
  /\ dict_get per_file "{output_files}" = None
  /\ dict_keys batch
     = ["{library_id}"; "{final_cache_path}"; "{source_file_path}"; "{source_file_size}";
        "{output_files}"]
  /\ dict_get batch "{output_files}" = Some json
  /\ dict_get batch "{output_file_path}" = None.
Proof.
  cbv zeta. cbn [loop_vars].
  change (dict_set (base_variable_map data size) "{output_file_path}" (Some f))
    with (base_variable_map data size ++ [("{output_file_path}", Some f)])%list.
  destruct (substitute _ c a) as [c1 a1]. rewrite loop_vars_map.
  repeat split.
Qed.

(** ** Per-file mode once the placeholders are used up *)

Lemma dict_set_keys_brace (vm : dict) (k : string) (v : option string) :
  starts_with_brace k = true ->
  forallb starts_with_brace (dict_keys vm) = true ->
  forallb starts_with_brace (dict_keys (dict_set vm k v)) = true.
Proof.
  intros Hk. induction vm as [|[k' v'] vm IH]; cbn.
  - now rewrite Hk.
  - intros H. apply andb_true_iff in H as [H1 H2].
    destruct (String.eqb k' k); cbn; rewrite H1; [exact H2 | now apply IH].
Qed.

Lemma substitute_brace_free (vm : dict) (c a : string) :
  forallb starts_with_brace (dict_keys vm) = true ->
  PyStr.has_char LBRACE c = false -> PyStr.has_char LBRACE a = false ->
  substitute vm c a = (c, a).
Proof.
  intros Hvm Hc Ha.
  assert (Habs : forall s, PyStr.has_char LBRACE s = false ->
                   forallb (fun key => negb (contains key s)) (dict_keys vm) = true).
  { intros s Hs. apply forallb_forall. intros k Hin.
    rewrite forallb_forall in Hvm. rewrite brace_key_absent; auto. }
  pose proof (substitute_fold_fixed vm (dict_keys vm) c a (Habs c Hc)) as H1.
  pose proof (substitute_fold_fixed vm (dict_keys vm) a c (Habs a Ha)) as H2.
  rewrite <- substitute_fold_swap in H2. fold (substitute vm c a) in H1, H2.
  destruct (substitute vm c a) as [c1 a1]. cbn in H1, H2. now subst.
Qed.

Lemma for_each_brace_free (h : host) (files : list string) (vm : dict) (c a : string)
    (tr tr1 : trace) :
  forallb starts_with_brace (dict_keys vm) = true ->
  PyStr.has_char LBRACE c = false -> PyStr.has_char LBRACE a = false ->
  for_each_destination_file h files vm c a tr = (Return tt, tr1) ->
  invocations tr1 = (invocations tr ++ repeat (Invoke c a None) (length files))%list.
Proof.
  intros Hvm Hc Ha. revert vm tr Hvm.
  induction files as [|f files IH]; intros vm tr Hvm; cbn [for_each_destination_file].
  - intros [= <-]. cbn. now rewrite app_nil_r.
  - assert (Hvm' : forallb starts_with_brace
                     (dict_keys (dict_set vm "{output_file_path}" (Some f))) = true)
      by now apply dict_set_keys_brace.
    rewrite (substitute_brace_free _ c a Hvm' Hc Ha). unfold bind.
    destruct (exec_subprocess_trace h c a None tr) as (tail & Ht & Hi).
    destruct (exec_subprocess h c a None tr) as [[r|e] t]; [|discriminate].
    intros H. apply (IH _ _ Hvm') in H. cbn in Ht. subst t. rewrite H.
    rewrite invocations_app.
    change (invocations (Invoke c a None :: tail))
      with (Invoke c a None :: invocations tail).
    rewrite Hi. cbn [length repeat]. now rewrite <- app_assoc.
Qed.

(** X4.  In per-file mode the command and the arguments are substituted in
    place.  When the strings obtained for the first file hold no brace any
    more, every call of the executor in a run that completes carries these
    same strings: one call per destination file, all with the first file's
    command line. *)
Theorem per_file_calls_repeat_first
    (h : host) (settings : Settings) (data : Data) (tr : trace) (c : string)
    (tr0 tr1 : trace) (f : string) (rest : list string) :
  only_on_task_processing_success settings && negb (task_processing_success data) = false ->
  run_for_each_destination_file settings = true ->
  destination_files data = Some (f :: rest) ->
  resolve_command h settings data tr = (Return c, tr0) ->
  let vm := base_variable_map data (getsize h tr0 (source_data_abspath data)) in
  let ca := substitute (dict_set vm "{output_file_path}" (Some f)) c
                       (normalize_args (args settings)) in
  PyStr.has_char LBRACE (fst ca) = false ->
  PyStr.has_char LBRACE (snd ca) = false ->
  on_postprocessor_task_results h settings data tr = (Return tt, tr1) ->
  invocations tr1
  = (invocations tr0 ++ repeat (Invoke (fst ca) (snd ca) None) (S (length rest)))%list.
Proof.
  intros Hg Hm Hf Hr vm ca Hc Ha.
  rewrite (hook_per_file h settings data tr c tr0 _ Hg Hm Hf Hr).
  fold vm. intros H.
  assert (Hvm : forallb starts_with_brace
                  (dict_keys (dict_set vm "{output_file_path}" (Some f))) = true)
    by reflexivity.
  cbn [for_each_destination_file] in H. fold ca in H.
  destruct ca as [c1 a1] eqn:E. cbn [fst snd] in *.
  unfold bind in H.
  destruct (exec_subprocess_trace h c1 a1 None tr0) as (tail & Ht & Hi).
  destruct (exec_subprocess h c1 a1 None tr0) as [[r|e] t]; [|discriminate].
  apply (for_each_brace_free h rest _ c1 a1 t tr1 Hvm Hc Ha) in H.
  cbn in Ht. subst t. rewrite H, invocations_app.
  change (invocations (Invoke c1 a1 None :: tail))
    with (Invoke c1 a1 None :: invocations tail).
  rewrite Hi. cbn [repeat]. now rewrite <- app_assoc.
Qed.

Lemma per_file_calls_repeat_first_witness :
  invocations (snd (run_plugin (const_host 0 (Some 7%Z))
                      (command_settings false true "cp {output_file_path}" "/backup/{library_id}")
                      (sample_data true (Some ["/a"; "/b"; "/c"]))))
  = repeat (Invoke "cp /a" "/backup/1" None) 3.
Proof.
  refine (per_file_calls_repeat_first (const_host 0 (Some 7%Z))
            (command_settings false true "cp {output_file_path}" "/backup/{library_id}")
            (sample_data true (Some ["/a"; "/b"; "/c"])) [] "cp {output_file_path}" [] _
            "/a" ["/b"; "/c"] eq_refl eq_refl eq_refl eq_refl _ _ _);
    vm_compute; reflexivity.
Defined.

(** ** When a process is spawned *)

Lemma all_space_app (a b : string) :
  PyStr.all_space (a ++ b) = PyStr.all_space a && PyStr.all_space b.
Proof.
  induction a as [|x a IH]; [reflexivity|]. cbn. now rewrite IH, andb_assoc.
Qed.

(** X5.  [exec_subprocess] spawns a process exactly when the command or the
    arguments hold a character that is not white space; the process runs the
    two joined by one space, in the directory given. *)
Theorem exec_subprocess_spawns_iff
    (h : host) (c a : string) (cwd : option string) (tr : trace) :
  (exists code : Z,
      snd (exec_subprocess h c a cwd tr)
      = (tr ++ [Invoke c a cwd; Popen (c ++ " " ++ a) cwd code])%list)
  <-> PyStr.all_space c && PyStr.all_space a = false.
Proof.
  assert (Hfull : PyStr.all_space (full_command_of c a)
                  = PyStr.all_space c && PyStr.all_space a).
  { unfold full_command_of. rewrite all_space_app. now cbn. }
  rewrite <- Hfull. split.
  - intros [code H]. destruct (PyStr.all_space (full_command_of c a)) eqn:Hb; [|reflexivity].
    rewrite exec_subprocess_blank in H by assumption. cbn in H.
    apply app_inv_head in H. discriminate.
  - intros Hb. rewrite exec_subprocess_spawn by assumption. cbv zeta. cbn [snd].
    eexists. now rewrite <- app_assoc.
Qed.

(* ================================================================== *)
(** ** What a run appends to the trace *)

Section Grows.

Variable Q : trace -> trace -> Prop.
Hypothesis Qnil : forall pre : trace, Q pre [].
Hypothesis Qapp : forall pre n1 n2 : trace,
    Q pre n1 -> Q (pre ++ n1)%list n2 -> Q pre (n1 ++ n2)%list.

Lemma grows_ret {A : Type} (a : A) : grows_by Q (ret a).
Proof. intros tr. exists []. cbn. now rewrite app_nil_r. Qed.

Lemma grows_raise {A : Type} (e : exn) : grows_by Q (@raise A e).
Proof. intros tr. exists []. cbn. now rewrite app_nil_r. Qed.

Lemma grows_ask {A : Type} (q : trace -> A) : grows_by Q (ask q).
Proof. intros tr. exists []. cbn. now rewrite app_nil_r. Qed.

Lemma grows_emit (e : event) : (forall tr, Q tr [e]) -> grows_by Q (emit e).
Proof. intros H tr. exists [e]. now cbn. Qed.

Lemma grows_bind {A B : Type} (m : M A) (k : A -> M B) :
  grows_by Q m -> (forall a, grows_by Q (k a)) -> grows_by Q (bind m k).
Proof.
  intros Hm Hk tr. unfold bind.
  destruct (Hm tr) as (n1 & E1 & Q1).
  destruct (m tr) as [[a|e] t]; cbn in E1; subst t.
  - destruct (Hk a (tr ++ n1)%list) as (n2 & E2 & Q2).
    exists (n1 ++ n2)%list. rewrite E2, app_assoc. auto.
  - exists n1. auto.
Qed.

End Grows.

Ltac grows_step nilp appp :=
  lazymatch goal with
  | |- grows_by _ (bind _ _) => apply (grows_bind _ appp); [|intros ?]
  | |- grows_by _ (ret _) => apply (grows_ret _ nilp)
  | |- grows_by _ (raise _) => apply (grows_raise _ nilp)
  | |- grows_by _ (ask _) => apply (grows_ask _ nilp)
  | |- grows_by _ (emit _) => apply grows_emit; intros ?; reflexivity
  | |- grows_by _ (if ?b then _ else _) => destruct b eqn:?
  | |- grows_by _ (match ?x with _ => _ end) => destruct x eqn:?
  end.

Lemma all_events_nil (ok : event -> bool) (pre : trace) : all_events ok pre [].
Proof. reflexivity. Qed.

Lemma all_events_app (ok : event -> bool) (pre n1 n2 : trace) :
  all_events ok pre n1 -> all_events ok (pre ++ n1)%list n2 ->
  all_events ok pre (n1 ++ n2)%list.
Proof. unfold all_events. intros H1 H2. now rewrite forallb_app, H1, H2. Qed.

Lemma makedirs_fresh_app (h : host) (pre n1 n2 : trace) :
  makedirs_fresh h pre (n1 ++ n2)%list
  = makedirs_fresh h pre n1 && makedirs_fresh h (pre ++ n1)%list n2.
Proof.
  revert pre. induction n1 as [|e n1 IH]; intros pre; cbn.
  - now rewrite app_nil_r.
  - rewrite IH, <- app_assoc. cbn. now rewrite andb_assoc.
Qed.

Lemma fresh_dirs_nil (h : host) (pre : trace) : fresh_dirs h pre [].
Proof. reflexivity. Qed.

Lemma fresh_dirs_app (h : host) (pre n1 n2 : trace) :
  fresh_dirs h pre n1 -> fresh_dirs h (pre ++ n1)%list n2 ->
  fresh_dirs h pre (n1 ++ n2)%list.
Proof. unfold fresh_dirs. intros H1 H2. now rewrite makedirs_fresh_app, H1, H2. Qed.

Section HookTraces.

Variable h : host.

(** The executor appends its call and at most its process, both in the
    directory it was given. *)
Lemma exec_subprocess_grows (ok : event -> bool) (c a : string) (cwd : option string) :
  (forall code, ok (Invoke c a cwd) = true
                /\ ok (Popen (full_command_of c a) cwd code) = true) ->
  grows_by (all_events ok) (exec_subprocess h c a cwd).
Proof.
  intros Hok tr.
  destruct (PyStr.all_space (full_command_of c a)) eqn:Hb.
  - rewrite exec_subprocess_blank by assumption. exists [Invoke c a cwd].
    split; [reflexivity|]. unfold all_events. cbn.
    now rewrite (proj1 (Hok 0%Z)).
  - rewrite exec_subprocess_spawn by assumption. cbv zeta.
    set (code := returncode h _ _ _).
    exists [Invoke c a cwd; Popen (full_command_of c a) cwd code].
    split; [cbn; now rewrite <- app_assoc|]. unfold all_events. cbn.
    now rewrite (proj1 (Hok code)), (proj2 (Hok code)).
Qed.

Lemma for_each_grows (ok : event -> bool) (files : list string) (vm : dict) (c a : string) :
  (forall c a code, ok (Invoke c a None) = true /\ ok (Popen c None code) = true) ->
  grows_by (all_events ok) (for_each_destination_file h files vm c a).
Proof.
  intros Hok. revert vm c a.
  induction files as [|f files IH]; intros vm c a; cbn [for_each_destination_file].
  - apply grows_ret. apply all_events_nil.
  - destruct (substitute _ c a) as [c1 a1].
    apply (grows_bind _ (all_events_app ok)); [|intros _; apply IH].
    apply exec_subprocess_grows. intros code.
    split; [exact (proj1 (Hok c1 a1 code)) | exact (proj2 (Hok _ a1 code))].
Qed.

Lemma run_once_grows (ok : event -> bool) (data : Data) (vm : dict) (c a : string) :
  (forall c a code, ok (Invoke c a None) = true /\ ok (Popen c None code) = true) ->
  grows_by (all_events ok) (run_once h data vm c a).
Proof.
  intros Hok. unfold run_once. destruct (substitute _ c a) as [c1 a1].
  apply (grows_bind _ (all_events_app ok)).
  - apply exec_subprocess_grows. intros code.
    split; [exact (proj1 (Hok c1 a1 code)) | exact (proj2 (Hok _ a1 code))].
  - intros _. apply grows_ret. apply all_events_nil.
Qed.

(** The part of the hook that follows command resolution. *)
Lemma fan_out_grows (ok : event -> bool) (settings : Settings) (data : Data) (c : string) :
  (forall c a code, ok (Invoke c a None) = true /\ ok (Popen c None code) = true) ->
  grows_by (all_events ok)
    (let args := normalize_args (args settings) in
     let abspath := source_data_abspath data in
     bind (ask (fun tr => getsize h tr abspath)) (fun source_size =>
     let variable_map := base_variable_map data source_size in
     if run_for_each_destination_file settings then
       match destination_files data with
       | Some files => for_each_destination_file h files variable_map c args
       | None => raise (TypeError "'NoneType' object is not iterable")
       end
     else run_once h data variable_map c args)).
Proof.
  intros Hok. cbv zeta.
  apply (grows_bind _ (all_events_app ok)).
  - apply grows_ask. apply all_events_nil.
  - intros size. destruct (run_for_each_destination_file settings).
    + destruct (destination_files data).
      * now apply for_each_grows.
      * apply grows_raise. apply all_events_nil.
    + now apply run_once_grows.
Qed.

Lemma hook_grows (ok : event -> bool) (settings : Settings) (data : Data) :
  (forall c a code, ok (Invoke c a None) = true /\ ok (Popen c None code) = true) ->
  grows_by (all_events ok) (resolve_command h settings data) ->
  grows_by (all_events ok) (on_postprocessor_task_results h settings data).
Proof.
  intros Hok Hres. unfold on_postprocessor_task_results.
  destruct (_ && _).
  - apply grows_ret. apply all_events_nil.
  - unfold run_hook.
    apply (grows_bind _ (all_events_app ok)); [exact Hres|].
    intros c. now apply fan_out_grows.
Qed.

End HookTraces.

(** X6.  With [input_type] set to [command] the hook touches no file, no
    directory and no environment variable: from any trace, everything it
    appends is a call of the executor or a spawned process, each in the
    caller's working directory. *)
Theorem command_mode_only_executes
    (h : host) (settings : Settings) (data : Data) (tr : trace) :
  input_type settings = "command" ->
  exists new : trace,
    snd (on_postprocessor_task_results h settings data tr) = (tr ++ new)%list
    /\ forallb is_plain_exec new = true
    /\ existsb is_file_event new = false.
Proof.
  intros Hit.
  assert (G : grows_by (all_events is_plain_exec)
                (on_postprocessor_task_results h settings data)).
  { apply hook_grows; [intros; now split|].
    unfold resolve_command. rewrite Hit. cbn.
    apply grows_ret. apply all_events_nil. }
  destruct (G tr) as (new & E & Hall). exists new. split; [exact E|].
  split; [exact Hall|]. unfold all_events in Hall.
  clear E. induction new as [|e new IH]; [reflexivity|].
  cbn in Hall |- *. apply andb_true_iff in Hall as [He Hn].
  rewrite (IH Hn), orb_false_r. now destruct e as [? ? [?|]|? [?|] ?| | | |].
Qed.

Lemma command_mode_only_executes_witness :
  exists new : trace,
    snd (run_plugin (host_failing_at 1)
           (command_settings false true "touch {output_file_path}" "")
           (sample_data true (Some ["/a"; "/b"])))
    = new
    /\ forallb is_plain_exec new = true
    /\ existsb is_file_event new = false.
Proof.
  apply (command_mode_only_executes (host_failing_at 1)
           (command_settings false true "touch {output_file_path}" "")
           (sample_data true (Some ["/a"; "/b"])) []).
  reflexivity.
Defined.

Section Provisioning.

Variable h : host.

Lemma ensure_dir_fresh (p : string) : grows_by (fresh_dirs h) (ensure_dir h p).
Proof.
  intros tr. unfold ensure_dir, bind, ask, emit. cbn.
  destruct (isdir h tr p) eqn:E; cbn.
  - exists []. now rewrite app_nil_r.
  - exists [Makedirs p]. split; [reflexivity|].
    unfold fresh_dirs. cbn. now rewrite E.
Qed.

Lemma ensure_dir_all (ok : event -> bool) (p : string) :
  ok (Makedirs p) = true -> grows_by (all_events ok) (ensure_dir h p).
Proof.
  intros Hok tr. unfold ensure_dir, bind, ask, emit. cbn.
  destruct (isdir h tr p); cbn.
  - exists []. now rewrite app_nil_r.
  - exists [Makedirs p]. split; [reflexivity|]. unfold all_events. cbn. now rewrite Hok.
Qed.

Lemma exec_subprocess_fresh (c a : string) (cwd : option string) :
  grows_by (fresh_dirs h) (exec_subprocess h c a cwd).
Proof.
  unfold exec_subprocess.
  repeat (cbv zeta; grows_step (fresh_dirs_nil h) (fresh_dirs_app h)).
Qed.

Lemma for_each_fresh (files : list string) (vm : dict) (c a : string) :
  grows_by (fresh_dirs h) (for_each_destination_file h files vm c a).
Proof.
  revert vm c a. induction files as [|f files IH]; intros vm c a;
    cbn [for_each_destination_file].
  - apply grows_ret. apply fresh_dirs_nil.
  - destruct (substitute _ c a) as [c1 a1].
    apply (grows_bind _ (fresh_dirs_app h)); [apply exec_subprocess_fresh|].
    intros _. apply IH.
Qed.

Lemma build_script_fresh (settings : Settings) (data : Data) :
  grows_by (fresh_dirs h) (build_script h settings data).
Proof.
  unfold build_script, get_temp_directory, get_dependency_cache_directory,
    get_executable_venv_python, get_executable_node.
  repeat (cbv zeta;
          first [ apply exec_subprocess_fresh
                | apply ensure_dir_fresh
                | grows_step (fresh_dirs_nil h) (fresh_dirs_app h) ]).
Qed.

Lemma hook_fresh (settings : Settings) (data : Data) :
  grows_by (fresh_dirs h) (on_postprocessor_task_results h settings data).
Proof.
  unfold on_postprocessor_task_results, run_hook, resolve_command, run_once.
  repeat (cbv zeta;
          first [ apply exec_subprocess_fresh
                | apply build_script_fresh
                | apply for_each_fresh
                | grows_step (fresh_dirs_nil h) (fresh_dirs_app h) ]).
Qed.

(** Building a script for an interpreter other than Python leaves the
    environment alone. *)
Lemma build_script_no_putenv (settings : Settings) (data : Data) :
  str_in (input_type settings) ["python"; "python3"] = false ->
  grows_by (all_events (fun e => negb (is_putenv e))) (build_script h settings data).
Proof.
  intros Hpy.
  unfold build_script, get_temp_directory, get_dependency_cache_directory,
    get_executable_node.
  rewrite Hpy.
  repeat (cbv zeta;
          first [ apply exec_subprocess_grows; intros ?; split; reflexivity
                | apply ensure_dir_all; reflexivity
                | grows_step (all_events_nil (fun e => negb (is_putenv e)))
                             (all_events_app (fun e => negb (is_putenv e))) ]).
Qed.

(** Building a script for an interpreter other than Python and Node runs
    no process. *)
Lemma build_script_no_process (settings : Settings) (data : Data) :
  str_in (input_type settings) ["python"; "python3"] = false ->
  str_in (input_type settings) ["node"] = false ->
  grows_by (all_events (fun e => negb (is_invoke e) && negb (is_popen e)))
           (build_script h settings data).
Proof.
  intros Hpy Hnode.
  unfold build_script, get_temp_directory, get_dependency_cache_directory.
  rewrite Hpy, Hnode.
  repeat (cbv zeta;
          first [ apply ensure_dir_all; reflexivity
                | grows_step
                    (all_events_nil (fun e => negb (is_invoke e) && negb (is_popen e)))
                    (all_events_app (fun e => negb (is_invoke e) && negb (is_popen e))) ]).
Qed.

End Provisioning.

Lemma forallb_negb_existsb {A : Type} (p : A -> bool) (l : list A) :
  forallb (fun x => negb (p x)) l = true -> existsb p l = false.
Proof.
  induction l as [|x l IH]; [reflexivity|]. cbn. intros H.
  apply andb_true_iff in H as [Hx Hl]. apply negb_true_iff in Hx.
  now rewrite Hx, IH.
Qed.

(** X7.  The hook never asks for a directory to be created that is there:
    at the moment of every [os.makedirs] it issues, the host reports the
    path as not being a directory (each one is guarded by [os.path.isdir]
    with nothing in between).  This holds for every input type, mode and
    host, from any trace; the trace itself is only ever extended. *)
Theorem hook_creates_only_missing_directories
    (h : host) (settings : Settings) (data : Data) (tr : trace) :
  exists new : trace,
    snd (on_postprocessor_task_results h settings data tr) = (tr ++ new)%list
    /\ makedirs_fresh h tr new = true.
Proof. apply hook_fresh. Qed.

(** X8.  Only a Python script makes the hook change the environment: unless
    [input_type] is [python] or [python3], no [PIP_CACHE_DIR] (nor any other
    variable) is set, whatever the host answers. *)
Theorem environment_changed_only_for_python
    (h : host) (settings : Settings) (data : Data) (tr : trace) :
  str_in (input_type settings) ["python"; "python3"] = false ->
  exists new : trace,
    snd (on_postprocessor_task_results h settings data tr) = (tr ++ new)%list
    /\ existsb is_putenv new = false.
Proof.
  intros Hpy.
  assert (G : grows_by (all_events (fun e => negb (is_putenv e)))
                (on_postprocessor_task_results h settings data)).
  { apply hook_grows; [intros; now split|].
    unfold resolve_command. destruct (negb _).
    - now apply build_script_no_putenv.
    - apply grows_ret. apply all_events_nil. }
  destruct (G tr) as (new & E & Hall). exists new. split; [exact E|].
  now apply forallb_negb_existsb.
Qed.

Lemma environment_changed_only_for_python_witness :
  exists new : trace,
    snd (run_plugin python_host
           {| only_on_task_processing_success := false;
              run_for_each_destination_file := false;
              input_type := "node";
              script := "console.log(1)";
              cmd := "";
              args := "";
              script_dependencies := "{}" |}
           (sample_data true (Some ["/a"])))
    = new
    /\ existsb is_putenv new = false.
Proof.
  apply (environment_changed_only_for_python python_host
           {| only_on_task_processing_success := false;
              run_for_each_destination_file := false;
              input_type := "node";
              script := "console.log(1)";
              cmd := "";
              args := "";
              script_dependencies := "{}" |}
           (sample_data true (Some ["/a"])) []).
  reflexivity.
Defined.

(** X9.  For [bash], and for any input type that is neither Python nor
    Node, resolving the command runs no process and calls the executor not
    once: the directories and the script file are all it touches. *)
Theorem no_provisioning_process_without_dependencies
    (h : host) (settings : Settings) (data : Data) (tr : trace) :
  str_in (input_type settings) ["python"; "python3"; "node"] = false ->
  exists new : trace,
    snd (resolve_command h settings data tr) = (tr ++ new)%list
    /\ invocations new = [] /\ spawned new = [].
Proof.
  intros Hdeps.
  assert (Hpy : str_in (input_type settings) ["python"; "python3"] = false).
  { cbn in Hdeps |- *. repeat (apply orb_false_iff in Hdeps as [? Hdeps]).
    repeat (apply orb_false_iff; split); assumption. }
  assert (Hnode : str_in (input_type settings) ["node"] = false).
  { cbn in Hdeps |- *. repeat (apply orb_false_iff in Hdeps as [? Hdeps]).
    repeat (apply orb_false_iff; split); assumption. }
  assert (G : grows_by (all_events (fun e => negb (is_invoke e) && negb (is_popen e)))
                (resolve_command h settings data)).
  { unfold resolve_command. destruct (negb _).
    - now apply build_script_no_process.
    - apply grows_ret. apply all_events_nil. }
  destruct (G tr) as (new & E & Hall). exists new. split; [exact E|].
  unfold all_events in Hall. clear E.
  induction new as [|e new IH]; [now split|].
  cbn in Hall. apply andb_true_iff in Hall as [He Hn].
  destruct (IH Hn) as [H1 H2]. unfold invocations, spawned in *. cbn.
  apply andb_true_iff in He as [Hi Hp].
  apply negb_true_iff in Hi, Hp. now rewrite Hi, Hp.
Qed.

Lemma no_provisioning_process_without_dependencies_witness :
  exists new : trace,
    snd (resolve_command python_host
           {| only_on_task_processing_success := false;
              run_for_each_destination_file := false;
              input_type := "bash";
              script := "echo hi";
              cmd := "";
              args := "";
              script_dependencies := "" |}
           (sample_data true (Some ["/a"])) [])
    = new
    /\ invocations new = [] /\ spawned new = [].
Proof.
  apply (no_provisioning_process_without_dependencies python_host
           {| only_on_task_processing_success := false;
              run_for_each_destination_file := false;
              input_type := "bash";
              script := "echo hi";
              cmd := "";
              args := "";
              script_dependencies := "" |}
           (sample_data true (Some ["/a"])) []).
  reflexivity.
Defined.

(* ================================================================== *)
(** ** The script that is built *)

Lemma S_IEXEC_bits (mode i : Z) :
  Z.testbit (Z.lor mode S_IEXEC) i = Z.testbit mode i || (i =? 6)%Z.
Proof.
  rewrite Z.lor_spec. f_equal. change S_IEXEC with (2 ^ 6)%Z.
  rewrite Z.pow2_bits_eqb by lia. apply Z.eqb_sym.
Qed.

(** What [build_script] has done and what it returns when it returns. *)
Lemma build_script_result
    (h : host) (settings : Settings) (data : Data) (tr : trace) (c : string) (tr' : trace) :
  build_script h settings data tr = (Return c, tr') ->
  let it := input_type settings in
  let temp := PyLib.join (PyLib.dirname (final_cache_path data)) "postprocessor_script" in
  let ext :=
    if str_in it ["python"; "python3"] then "py"
    else if str_in it ["node"] then "js"
    else if str_in it ["bash"] then "sh" else "txt" in
  let exe :=
    if str_in it ["python"; "python3"]
    then PyLib.join (PyLib.join (PyLib.join temp "venv") "bin") "python3"
    else if str_in it ["node"] then PyStr.str_opt (which h "node")
    else PyStr.str_opt (which h it) in
  let script_path := PyLib.join temp ("script." ++ ext) in
  c = exe ++ " " ++ script_path
  /\ (exists (pre : trace) (mode : Z),
        tr' = (pre ++ [WriteFile script_path (script settings);
                       Chmod script_path (Z.lor mode S_IEXEC)])%list
        /\ mode = st_mode h (pre ++ [WriteFile script_path (script settings)])%list script_path
        /\ forall i : Z,
             Z.testbit (Z.lor mode S_IEXEC) i = Z.testbit mode i || (i =? 6)%Z).
Proof.
  intros H. cbv zeta.
  unfold build_script, get_temp_directory, get_dependency_cache_directory,
    get_executable_venv_python, get_executable_node, ensure_dir,
    bind, emit, ask, ret in H.
  cbv zeta in H.
  repeat match type of H with
         | context [exec_subprocess ?a ?b ?c ?d ?e] =>
             destruct (exec_subprocess a b c d e) as [[?|?] ?]
         | context [if ?b then _ else _] => destruct b eqn:?
         end;
    try discriminate;
    injection H as <- <-;
    (split; [reflexivity|]);
    eexists _, _; (split; [rewrite <- app_assoc; reflexivity|]);
    (split; [reflexivity | intros i; apply S_IEXEC_bits]).
Qed.

(** X10.  When [build_script] returns, the last two things it did were to
    write the configured script to [script.<ext>] in the scratch directory
    next to the cache file and to change that file's mode to its current
    mode with the owner-execute bit added and no other bit changed.  The
    extension is [py] for [python] and [python3], [js] for [node], [sh] for
    [bash] and [txt] otherwise.  The command returned is the interpreter, a
    space and the script path, where the interpreter is the scratch
    directory's [venv/bin/python3] for Python and otherwise what
    [shutil.which] found for the input type, printed as [None] when it found
    nothing. *)
Theorem build_script_contract
    (h : host) (settings : Settings) (data : Data) (tr : trace) (c : string) (tr' : trace) :
  build_script h settings data tr = (Return c, tr') ->
  let it := input_type settings in
  let temp := PyLib.join (PyLib.dirname (final_cache_path data)) "postprocessor_script" in
  let ext :=
    if str_in it ["python"; "python3"] then "py"
    else if str_in it ["node"] then "js"
    else if str_in it ["bash"] then "sh" else "txt" in
  let exe :=
    if str_in it ["python"; "python3"]
    then PyLib.join (PyLib.join (PyLib.join temp "venv") "bin") "python3"
    else if str_in it ["node"] then PyStr.str_opt (which h "node")
    else PyStr.str_opt (which h it) in
  let script_path := PyLib.join temp ("script." ++ ext) in
  c = exe ++ " " ++ script_path
  /\ (exists (pre : trace) (mode : Z),
        tr' = (pre ++ [WriteFile script_path (script settings);
                       Chmod script_path (Z.lor mode S_IEXEC)])%list
        /\ mode = st_mode h (pre ++ [WriteFile script_path (script settings)])%list script_path
        /\ forall i : Z,
             Z.testbit (Z.lor mode S_IEXEC) i = Z.testbit mode i || (i =? 6)%Z).
Proof. apply build_script_result. Qed.

Lemma build_script_contract_witness :
  exists (pre : trace) (mode : Z),
    [WriteFile "/cache/task-1/postprocessor_script/script.sh" "echo hi";
     Chmod "/cache/task-1/postprocessor_script/script.sh" 484]
    = (pre ++ [WriteFile "/cache/task-1/postprocessor_script/script.sh" "echo hi";
               Chmod "/cache/task-1/postprocessor_script/script.sh" (Z.lor mode S_IEXEC)])%list
    /\ mode = 420%Z
    /\ forall i : Z,
         Z.testbit (Z.lor mode S_IEXEC) i = Z.testbit mode i || (i =? 6)%Z.
Proof.
  exact (proj2 (build_script_contract (const_host 0 None)
         {| only_on_task_processing_success := false;
            run_for_each_destination_file := false;
            input_type := "bash";
            script := "echo hi";
            cmd := "";
            args := "";
            script_dependencies := "" |}
         (sample_data true None) []
         "None /cache/task-1/postprocessor_script/script.sh"
         [WriteFile "/cache/task-1/postprocessor_script/script.sh" "echo hi";
          Chmod "/cache/task-1/postprocessor_script/script.sh" 484]
         eq_refl)).
Defined.

(* ================================================================== *)
(** ** A failing provisioning step *)

Lemma exec_subprocess_fails (h : host) (c a : string) (cwd : option string) (tr : trace) :
  PyStr.all_space (full_command_of c a) = false ->
  (forall t : trace, returncode h t (full_command_of c a) cwd <> 0%Z) ->
  exec_subprocess h c a cwd tr
  = (Raise (Exception (failure_message (full_command_of c a))),
     ((tr ++ [Invoke c a cwd])
        ++ [Popen (full_command_of c a) cwd
              (returncode h (tr ++ [Invoke c a cwd]) (full_command_of c a) cwd)])%list).
Proof.
  intros Hb Hcode. rewrite exec_subprocess_spawn by assumption. cbv zeta.
  destruct (Z.eqb_spec (returncode h (tr ++ [Invoke c a cwd])%list (full_command_of c a) cwd) 0)
    as [E|N]; [now apply Hcode in E | reflexivity].
Qed.

(** X11.  A Python script whose virtual environment cannot be created: the
    hook raises the failure of the [venv] command and stops there.  Up to
    that point it has, besides creating missing directories, written
    [requirements.txt] and run that one process in the scratch directory;
    it has installed nothing, set no environment variable, written no
    script and run nothing for any destination file. *)
Theorem venv_failure_aborts_hook
    (h : host) (settings : Settings) (data : Data) (tr : trace) :
  only_on_task_processing_success settings && negb (task_processing_success data) = false ->
  str_in (input_type settings) ["python"; "python3"] = true ->
  let temp := PyLib.join (PyLib.dirname (final_cache_path data)) "postprocessor_script" in
  let venv := PyStr.str_opt (which h "python3") ++ " -m venv venv" in
  (forall t : trace, returncode h t (full_command_of venv "") (Some temp) <> 0%Z) ->
  exists (pre : trace) (code : Z),
    on_postprocessor_task_results h settings data tr
    = (Raise (Exception (failure_message (full_command_of venv ""))),
       (tr ++ pre ++ [Invoke venv "" (Some temp);
                      Popen (full_command_of venv "") (Some temp) code])%list)
    /\ code <> 0%Z
    /\ filter (fun e => negb (is_makedirs e)) pre
       = [WriteFile (PyLib.join temp "requirements.txt") (script_dependencies settings)].
Proof.
  intros Hg Hpy temp venv Hcode.
  assert (Hb : PyStr.all_space (full_command_of venv "") = false).
  { unfold full_command_of, venv. rewrite !all_space_app.
    now destruct (PyStr.all_space (PyStr.str_opt _)). }
  assert (Hcmd : negb (String.eqb (input_type settings) "command") = true).
  { cbn in Hpy. rewrite orb_false_r in Hpy. apply orb_true_iff in Hpy as [E|E];
      apply String.eqb_eq in E; now rewrite E. }
  unfold on_postprocessor_task_results. rewrite Hg.
  unfold run_hook, resolve_command. rewrite Hcmd.
  unfold build_script, get_temp_directory, get_dependency_cache_directory,
    get_executable_venv_python, ensure_dir.
  rewrite Hpy. fold temp. fold venv.
  unfold bind, emit, ask, ret. cbv zeta.
  repeat match goal with
         | |- context [if isdir h ?t ?p then _ else _] => destruct (isdir h t p)
         end;
    rewrite (exec_subprocess_fails h venv "" (Some temp) _ Hb Hcode);
    rewrite <- !app_assoc; cbn [app];
    match goal with
    | |- exists pre code, (_, (tr ++ ?L)%list) = _ /\ _ =>
        exists (removelast (removelast L)); eexists
    end;
    (split; [reflexivity|]);
    (split; [apply Hcode | reflexivity]).
Qed.

Lemma venv_failure_aborts_hook_witness :
  exists (pre : trace) (code : Z),
    run_plugin (const_host 2 None)
      {| only_on_task_processing_success := false;
         run_for_each_destination_file := true;
         input_type := "python3";
         script := "print(1)";
         cmd := "";
         args := "{output_file_path}";
         script_dependencies := "requests" |}
      (sample_data true (Some ["/a"; "/b"]))
    = (Raise (Exception "Failed to execute command: 'None -m venv venv '"),
       (pre ++ [Invoke "None -m venv venv" "" (Some "/cache/task-1/postprocessor_script");
                Popen "None -m venv venv " (Some "/cache/task-1/postprocessor_script") code])%list)
    /\ code <> 0%Z
    /\ filter (fun e => negb (is_makedirs e)) pre
       = [WriteFile "/cache/task-1/postprocessor_script/requirements.txt" "requests"].
Proof.
  refine (venv_failure_aborts_hook (const_host 2 None)
      {| only_on_task_processing_success := false;
         run_for_each_destination_file := true;
         input_type := "python3";
         script := "print(1)";
         cmd := "";
         args := "{output_file_path}";
         script_dependencies := "requests" |}
      (sample_data true (Some ["/a"; "/b"])) [] eq_refl eq_refl _).
  intros t. discriminate.
Defined.

(* ================================================================== *)
(** ** Paths *)

Section Paths.

Import PyLib.

Lemma rstrip_sep_nil_iff (s : string) : rstrip_sep s = "" <-> all_sep s = true.
Proof.
  induction s as [|c s IH]; cbn [rstrip_sep all_sep]; [now split|].
  destruct (rstrip_sep s) eqn:E.
  - destruct (Ascii.eqb c SEP); cbn [andb]; [|now split].
    split; intros _; [now apply IH | reflexivity].
  - split; [discriminate|]. intros H. apply andb_true_iff in H as [_ H].
    apply IH in H. discriminate.
Qed.

Lemma rstrip_sep_no_trailing (s : string) : ends_with_sep (rstrip_sep s) = false.
Proof.
  induction s as [|c s IH]; [reflexivity|]. cbn [rstrip_sep].
  destruct (rstrip_sep s) as [|x r] eqn:E.
  - destruct (Ascii.eqb c SEP) eqn:Ec; [reflexivity|]. cbn. exact Ec.
  - exact IH.
Qed.

Lemma rstrip_sep_fixed (s : string) : ends_with_sep s = false -> rstrip_sep s = s.
Proof.
  induction s as [|c s IH]; [reflexivity|]. intros H. cbn [rstrip_sep].
  destruct s as [|x s'].
  - cbn in H |- *. now rewrite H.
  - rewrite IH by exact H. reflexivity.
Qed.

Lemma ends_with_sep_app (a : string) (c : ascii) (b : string) :
  ends_with_sep (a ++ String c b) = ends_with_sep (String c b).
Proof.
  induction a as [|x a IH]; [reflexivity|].
  cbn [append]. change (ends_with_sep (String x (a ++ String c b)))
    with (match a ++ String c b with
          | EmptyString => Ascii.eqb x SEP
          | String _ _ => ends_with_sep (a ++ String c b)
          end).
  destruct (a ++ String c b) eqn:E; [now destruct a | exact IH].
Qed.

Lemma all_sep_ends (s : string) : s <> "" -> all_sep s = true -> ends_with_sep s = true.
Proof.
  induction s as [|c s IH]; [now intros []|]. intros _ H.
  cbn in H. apply andb_true_iff in H as [Hc Hs].
  destruct s as [|x s']; [exact Hc|]. apply IH; [discriminate | exact Hs].
Qed.

Lemma all_sep_app (a b : string) : all_sep (a ++ b) = all_sep a && all_sep b.
Proof.
  induction a as [|x a IH]; [reflexivity|]. cbn. now rewrite IH, andb_assoc.
Qed.

(** No separator in the tail: the head up to the last separator is decided
    by what comes before. *)
Lemma head_upto_last_sep_app (a name : string) :
  PyStr.has_char SEP name = false ->
  head_upto_last_sep (a ++ name) = head_upto_last_sep a.
Proof.
  intros Hn.
  assert (H0 : head_upto_last_sep name = "").
  { induction name as [|c n IH]; [reflexivity|].
    cbn in Hn. apply orb_false_iff in Hn as [Hc Hn].
    cbn. now rewrite (IH Hn), Hc. }
  induction a as [|x a IH]; [exact H0|]. cbn. now rewrite IH.
Qed.

Lemma head_upto_last_sep_trailing (s : string) :
  ends_with_sep s = true -> head_upto_last_sep s = s.
Proof.
  induction s as [|c s IH]; [discriminate|]. intros H. cbn [head_upto_last_sep].
  destruct s as [|x s'].
  - cbn in H |- *. now rewrite H.
  - rewrite IH by exact H. reflexivity.
Qed.

Lemma rstrip_sep_snoc (s : string) :
  rstrip_sep (s ++ String SEP "") = rstrip_sep s.
Proof.
  induction s as [|c s IH]; [reflexivity|].
  cbn [rstrip_sep append]. now rewrite IH.
Qed.

(** What [dirname] returns is empty, or made of separators only, or does not
    end in a separator. *)
Lemma dirname_shape (p : string) :
  dirname p = ""
  \/ (dirname p <> "" /\ all_sep (dirname p) = true)
  \/ (dirname p <> "" /\ all_sep (dirname p) = false
      /\ ends_with_sep (dirname p) = false).
Proof.
  unfold dirname. set (head := head_upto_last_sep p).
  destruct head as [|c hd] eqn:E; [now left|]. cbn [PyStr.truthy andb].
  destruct (all_sep (String c hd)) eqn:Ha; cbn [negb].
  - right; left. now split.
  - right; right.
    assert (Hne : rstrip_sep (String c hd) <> "").
    { intros H. apply rstrip_sep_nil_iff in H. congruence. }
    split; [exact Hne|]. split; [|apply rstrip_sep_no_trailing].
    destruct (all_sep (rstrip_sep (String c hd))) eqn:Hr; [|reflexivity].
    apply (all_sep_ends _ Hne) in Hr. now rewrite rstrip_sep_no_trailing in Hr.
Qed.

(** The directory of a file put into [dirname p] is [dirname p] again. *)
Lemma dirname_join_dirname (p name : string) :
  name <> "" -> PyStr.has_char SEP name = false ->
  dirname (join (dirname p) name) = dirname p.
Proof.
  intros Hne Hn.
  assert (Hs : starts_with_sep name = false).
  { destruct name as [|c n]; [reflexivity|]. cbn in Hn |- *.
    now apply orb_false_iff in Hn as [-> _]. }
  unfold join. rewrite Hs.
  destruct (dirname_shape p) as [E | [[Hd Ha] | (Hd & Ha & He)]].
  - rewrite E. cbn [PyStr.truthy negb orb append].
    pose proof (head_upto_last_sep_app "" name Hn) as H0. cbn [append] in H0.
    unfold dirname. rewrite H0. reflexivity.
  - set (d := dirname p) in *.
    rewrite (all_sep_ends d Hd Ha), orb_true_r.
    unfold dirname at 1. rewrite (head_upto_last_sep_app d name Hn).
    rewrite (head_upto_last_sep_trailing d (all_sep_ends d Hd Ha)).
    now rewrite Ha, andb_false_r.
  - set (d := dirname p) in *.
    assert (Ht : PyStr.truthy d = true) by (destruct d; [now elim Hd | reflexivity]).
    rewrite Ht, He. cbn [negb orb].
    unfold dirname at 1.
    change (d ++ String SEP name) with (d ++ (String SEP "") ++ name).
    rewrite <- append_assoc.
    rewrite (head_upto_last_sep_app (d ++ String SEP "") name Hn).
    rewrite head_upto_last_sep_trailing
      by (rewrite ends_with_sep_app; reflexivity).
    assert (Hall : all_sep (d ++ String SEP "") = false)
      by (rewrite all_sep_app, Ha; reflexivity).
    assert (Htr : PyStr.truthy (d ++ String SEP "") = true) by now destruct d.
    rewrite Hall, Htr. cbn [negb andb].
    rewrite rstrip_sep_snoc. now apply rstrip_sep_fixed.
Qed.

End Paths.

(** X12.  [get_temp_directory] always returns, and the scratch directory it
    returns is [postprocessor_script] placed in the directory of the cache
    file: the directory of the one is the directory of the other, whatever
    the path looks like.  The directory is created only when the host says
    it is missing. *)
Theorem scratch_directory_beside_cache_file
    (h : host) (cache_file_path : string) (tr : trace) :
  exists out : string,
    get_temp_directory h cache_file_path tr
    = (Return out, if isdir h tr out then tr else (tr ++ [Makedirs out])%list)
    /\ PyLib.dirname out = PyLib.dirname cache_file_path
    /\ (exists parent : string, out = parent ++ "postprocessor_script").
Proof.
  exists (PyLib.join (PyLib.dirname cache_file_path) "postprocessor_script").
  split; [|split].
  - unfold get_temp_directory, ensure_dir, bind, ask, emit, ret. cbv zeta.
    now destruct (isdir h tr _).
  - now apply dirname_join_dirname.
  - unfold PyLib.join. cbn [PyLib.starts_with_sep Ascii.eqb].
    change (PyLib.starts_with_sep "postprocessor_script") with false. cbv iota.
    destruct (negb _ || _).
    + now eexists.
    + exists (PyLib.dirname cache_file_path ++ String PyLib.SEP "").
      now rewrite append_assoc.
Qed.

(* ================================================================== *)
(** ** The JSON array of batch mode *)

Lemma all_chars_app (p : ascii -> bool) (a b : string) :
  all_chars p (a ++ b) = all_chars p a && all_chars p b.
Proof.
  induction a as [|x a IH]; [reflexivity|]. cbn. now rewrite IH, andb_assoc.
Qed.

Lemma json_escape_char_printable (c : ascii) :
  all_chars printable (PyLib.json_escape_char c) = true.
Proof. destruct c as [[] [] [] [] [] [] [] []]; vm_compute; reflexivity. Qed.

Lemma json_dumps_str_printable (s : string) :
  all_chars printable (PyLib.json_dumps_str s) = true.
Proof.
  unfold PyLib.json_dumps_str.
  change (String PyLib.DQUOTE ?x) with (String PyLib.DQUOTE "" ++ x).
  rewrite !all_chars_app. cbn [andb].
  assert (H : all_chars printable (PyLib.json_escape s) = true).
  { induction s as [|c s IH]; [reflexivity|]. cbn [PyLib.json_escape].
    now rewrite all_chars_app, json_escape_char_printable, IH. }
  now rewrite H.
Qed.

(** X13.  The text put in place of [{output_files}] is plain printable
    ASCII whatever the file names are: [json.dumps] leaves no line break, no
    control character and no character above [~] in it. *)
Theorem json_dumps_printable (files : list string) :
  all_chars printable (PyLib.json_dumps files) = true
  /\ PyStr.has_char PyStr.LF (PyLib.json_dumps files) = false
  /\ PyStr.has_char PyStr.CR (PyLib.json_dumps files) = false.
Proof.
  assert (Hp : all_chars printable (PyLib.json_dumps files) = true).
  { unfold PyLib.json_dumps. rewrite !all_chars_app. cbn [all_chars andb].
    assert (H : all_chars printable
                  (String.concat ", " (map PyLib.json_dumps_str files)) = true).
    { induction files as [|f files IH]; [reflexivity|].
      cbn [map String.concat]. destruct (map PyLib.json_dumps_str files) eqn:E.
      - apply json_dumps_str_printable.
      - rewrite !all_chars_app, json_dumps_str_printable, IH. reflexivity. }
    now rewrite H. }
  split; [exact Hp|].
  assert (Hno : forall c s, printable c = false -> all_chars printable s = true ->
                       PyStr.has_char c s = false).
  { intros c s Hc. induction s as [|x s IH]; [reflexivity|]. cbn. intros H.
    apply andb_true_iff in H as [Hx Hs]. rewrite (IH Hs), orb_false_r.
    destruct (Ascii.eqb_spec x c) as [->|]; [congruence | reflexivity]. }
  split; apply Hno; trivial.
Qed.

(* ================================================================== *)
(** ** More on the normalisation of the arguments *)

Lemma spec_strip_line_breaks_app (a b : string) :
  spec_strip_line_breaks (a ++ b) = spec_strip_line_breaks a ++ spec_strip_line_breaks b.
Proof.
  induction a as [|x a IH]; [reflexivity|]. cbn [append spec_strip_line_breaks].
  rewrite IH. now destruct (Ascii.eqb x PyStr.LF), (Ascii.eqb x PyStr.CR).
Qed.

Lemma spec_strip_line_breaks_fixed (s : string) :
  PyStr.has_char PyStr.LF s = false -> PyStr.has_char PyStr.CR s = false ->
  spec_strip_line_breaks s = s.
Proof.
  induction s as [|x s IH]; [reflexivity|]. cbn [PyStr.has_char spec_strip_line_breaks].
  intros H1 H2. apply orb_false_iff in H1 as [E1 H1]. apply orb_false_iff in H2 as [E2 H2].
  now rewrite E1, E2, IH.
Qed.

(** X14.  Normalising the arguments works piece by piece, never makes
    them longer, and is idempotent: normalised arguments are left as they
    are, and so are arguments that hold no line break. *)
Theorem normalize_args_algebra (a b : string) :
  normalize_args (a ++ b) = normalize_args a ++ normalize_args b
  /\ normalize_args (normalize_args a) = normalize_args a
  /\ String.length (normalize_args a) <= String.length a
  /\ (PyStr.has_char PyStr.LF a = false -> PyStr.has_char PyStr.CR a = false ->
      normalize_args a = a).
Proof.
  rewrite !normalize_args_spec. split; [apply spec_strip_line_breaks_app|].
  split; [|split].
  - destruct (spec_strip_line_breaks_clean a) as [H1 H2].
    now apply spec_strip_line_breaks_fixed.
  - induction a as [|x a IH]; [cbn; lia|]. cbn [spec_strip_line_breaks].
    destruct (Ascii.eqb x PyStr.LF); [cbn; lia|].
    destruct (Ascii.eqb x PyStr.CR); cbn; lia.
  - apply spec_strip_line_breaks_fixed.
Qed.

Lemma normalize_args_algebra_witness :
  normalize_args "--fast --out {output_file_path}" = "--fast --out {output_file_path}".
Proof.
  destruct (normalize_args_algebra "--fast --out {output_file_path}" "") as (_ & _ & _ & H).
  apply H; reflexivity.
Defined.

(* ================================================================== *)
(** ** Per-file mode without files *)

(** X19.  Per-file mode with nothing to iterate over, once the gate is
    passed and the command resolved: for an empty [destination_files] the
    hook returns normally without calling the executor, and for a payload
    without [destination_files] it raises a [TypeError]; in both cases
    whatever command resolution did has been done. *)
Theorem per_file_without_files
    (h : host) (settings : Settings) (data : Data) (tr : trace) (c : string) (tr0 : trace) :
  only_on_task_processing_success settings && negb (task_processing_success data) = false ->
  run_for_each_destination_file settings = true ->
  resolve_command h settings data tr = (Return c, tr0) ->
  (destination_files data = Some [] ->
   on_postprocessor_task_results h settings data tr = (Return tt, tr0))
  /\ (destination_files data = None ->
      on_postprocessor_task_results h settings data tr
      = (Raise (TypeError "'NoneType' object is not iterable"), tr0)).
Proof.
  intros Hg Hm Hr. split; intros Hf.
  - now rewrite (hook_per_file h settings data tr c tr0 [] Hg Hm Hf Hr).
  - unfold on_postprocessor_task_results, run_hook, bind, ask.
    now rewrite Hg, Hr, Hm, Hf.
Qed.

Lemma per_file_without_files_witness :
  run_plugin (const_host 2 None) (command_settings false true "false" "")
    (sample_data true (Some []))
  = (Return tt, [])
  /\ run_plugin (const_host 2 None) (command_settings false true "false" "")
       (sample_data true None)
     = (Raise (TypeError "'NoneType' object is not iterable"), []).
Proof.
  split.
  - exact (proj1 (per_file_without_files (const_host 2 None)
             (command_settings false true "false" "") (sample_data true (Some []))
             [] "false" [] eq_refl eq_refl eq_refl) eq_refl).
  - exact (proj2 (per_file_without_files (const_host 2 None)
             (command_settings false true "false" "") (sample_data true None)
             [] "false" [] eq_refl eq_refl eq_refl) eq_refl).
Defined.

(* ================================================================== *)
(** ** What the hook can raise *)

Section Raises.

Variable h : host.

Lemma rof_ret {A : Type} (a : A) : raises_only_on_failure (ret a).
Proof. intros tr e tr'. discriminate. Qed.

Lemma rof_ask {A : Type} (q : trace -> A) : raises_only_on_failure (ask q).
Proof. intros tr e tr'. discriminate. Qed.

Lemma rof_emit (ev : event) : raises_only_on_failure (emit ev).
Proof. intros tr e tr'. discriminate. Qed.

Lemma rof_bind {A B : Type} (m : M A) (k : A -> M B) :
  raises_only_on_failure m -> (forall a, raises_only_on_failure (k a)) ->
  raises_only_on_failure (bind m k).
Proof.
  intros Hm Hk tr e tr'. unfold bind.
  destruct (m tr) as [[a|e1] t] eqn:E.
  - apply Hk.
  - intros [= <- <-]. exact (Hm _ _ _ E).
Qed.

Lemma rof_ensure_dir (p : string) : raises_only_on_failure (ensure_dir h p).
Proof.
  intros tr e tr'. unfold ensure_dir, bind, ask, emit, ret. cbn.
  destruct (isdir h tr p); discriminate.
Qed.

Lemma rof_exec (c a : string) (cwd : option string) :
  raises_only_on_failure (exec_subprocess h c a cwd).
Proof.
  intros tr e tr'.
  destruct (PyStr.all_space (full_command_of c a)) eqn:Hb.
  - rewrite exec_subprocess_blank by assumption. discriminate.
  - rewrite exec_subprocess_spawn by assumption. cbv zeta.
    set (code := returncode h _ _ _).
    destruct (Z.eqb_spec code 0) as [E|N]; [discriminate|].
    intros [= <- <-]. now exists (tr ++ [Invoke c a cwd])%list, (full_command_of c a), cwd, code.
Qed.

Ltac rof_step :=
  cbv zeta;
  lazymatch goal with
  | |- raises_only_on_failure (bind _ _) => apply rof_bind; [|intros ?]
  | |- raises_only_on_failure (ret _) => apply rof_ret
  | |- raises_only_on_failure (ask _) => apply rof_ask
  | |- raises_only_on_failure (emit _) => apply rof_emit
  | |- raises_only_on_failure (ensure_dir _ _) => apply rof_ensure_dir
  | |- raises_only_on_failure (exec_subprocess _ _ _ _) => apply rof_exec
  | |- raises_only_on_failure (if ?b then _ else _) => destruct b
  | |- raises_only_on_failure (match ?x with _ => _ end) => destruct x
  end.

Lemma rof_build_script (settings : Settings) (data : Data) :
  raises_only_on_failure (build_script h settings data).
Proof.
  unfold build_script, get_temp_directory, get_dependency_cache_directory,
    get_executable_venv_python, get_executable_node.
  repeat rof_step.
Qed.

Lemma rof_for_each (files : list string) (vm : dict) (c a : string) :
  raises_only_on_failure (for_each_destination_file h files vm c a).
Proof.
  revert vm c a. induction files as [|f files IH]; intros vm c a;
    cbn [for_each_destination_file].
  - apply rof_ret.
  - destruct (substitute _ c a) as [c1 a1].
    apply rof_bind; [apply rof_exec | intros _; apply IH].
Qed.

Lemma rof_run_once (data : Data) (vm : dict) (c a : string) :
  raises_only_on_failure (run_once h data vm c a).
Proof. unfold run_once. repeat rof_step. Qed.

Lemma rof_resolve_command (settings : Settings) (data : Data) :
  raises_only_on_failure (resolve_command h settings data).
Proof.
  unfold resolve_command. destruct (negb _); [apply rof_build_script | apply rof_ret].
Qed.

End Raises.

(** X20.  Whenever the hook raises, one of two things has happened.  Either
    the last event of the trace is a process that exited with a status other
    than 0, and the exception is the one [exec_subprocess] raises for that
    process's command line (this covers provisioning and every fan-out run);
    or per-file mode found no [destination_files] in the payload and the
    exception is the [TypeError] of iterating over [None].  The model takes
    file-system calls to succeed. *)
Theorem hook_raises_only_for_a_failed_process_or_missing_files
    (h : host) (settings : Settings) (data : Data) (tr : trace) (e : exn) (tr' : trace) :
  on_postprocessor_task_results h settings data tr = (Raise e, tr') ->
  failed_process e tr'
  \/ (e = TypeError "'NoneType' object is not iterable"
      /\ run_for_each_destination_file settings = true
      /\ destination_files data = None).
Proof.
  unfold on_postprocessor_task_results.
  destruct (_ && _); [discriminate|].
  unfold run_hook, bind at 1.
  destruct (resolve_command h settings data tr) as [[c|e1] t] eqn:Hr.
  - unfold bind, ask.
    destruct (run_for_each_destination_file settings).
    + destruct (destination_files data) as [files|].
      * intros H. left. exact (rof_for_each h _ _ _ _ _ _ _ H).
      * intros [= <- <-]. right. now repeat split.
    + intros H. left. exact (rof_run_once h _ _ _ _ _ _ _ H).
  - intros [= <- <-]. left. exact (rof_resolve_command h _ _ _ _ _ Hr).
Qed.

Lemma hook_raises_only_for_a_failed_process_or_missing_files_witness :
  failed_process (Exception "Failed to execute command: 'false --now'")
                 [Invoke "false" "--now" None; Popen "false --now" None 2]
  \/ (Exception "Failed to execute command: 'false --now'"
      = TypeError "'NoneType' object is not iterable"
      /\ false = true
      /\ Some ["/library/out.mkv"] = None).
Proof.
  apply (hook_raises_only_for_a_failed_process_or_missing_files (const_host 2 None)
           (command_settings false false "false" "--now")
           (sample_data true (Some ["/library/out.mkv"])) []).
  reflexivity.
Defined.

(* ================================================================== *)
(** ** The settings form *)

Lemma str_in_two_not_command (t : string) :
  str_in t ["python3"; "node"] = true -> String.eqb t "command" = false.
Proof.
  cbn. rewrite orb_false_r. intros H. apply orb_true_iff in H as [E|E];
    apply String.eqb_eq in E; now rewrite E.
Qed.

(** X15.  Which fields the form shows.  The script field is hidden exactly
    for input type [command] and the command field exactly for every other
    input type, so one of the two is shown and never both.  The dependencies
    field is shown exactly for [python3] and [node], and then the script
    field is shown with it; its label names [requirements.txt] for
    [python3], [package.json] for [node]. *)
Theorem form_fields_visibility (settings : Settings) :
  let it := input_type settings in
  Form.hidden (Form.__set_script_form_settings settings) = String.eqb it "command"
  /\ Form.hidden (Form.__set_cmd_form_settings settings) = negb (String.eqb it "command")
  /\ Form.hidden (Form.__set_script_dependencies_form_settings settings)
     = negb (str_in it ["python3"; "node"])
  /\ (Form.hidden (Form.__set_script_dependencies_form_settings settings) = false ->
      Form.hidden (Form.__set_script_form_settings settings) = false)
  /\ Form.get (Form.__set_script_dependencies_form_settings settings) "label"
     = Some (Form.FStr (if String.eqb it "python3" then "Script requirements.txt file"
                        else if String.eqb it "node" then "Script package.json file"
                        else "Script Dependencies file")).
Proof.
  cbv zeta.
  assert (H1 : Form.hidden (Form.__set_script_form_settings settings)
               = String.eqb (input_type settings) "command").
  { unfold Form.__set_script_form_settings. cbn [str_in existsb].
    rewrite orb_false_r. now destruct (String.eqb _ "command"). }
  assert (H2 : Form.hidden (Form.__set_cmd_form_settings settings)
               = negb (String.eqb (input_type settings) "command")).
  { unfold Form.__set_cmd_form_settings. cbn [str_in existsb].
    rewrite orb_false_r. now destruct (String.eqb _ "command"). }
  assert (H3 : Form.hidden (Form.__set_script_dependencies_form_settings settings)
               = negb (str_in (input_type settings) ["python3"; "node"])).
  { unfold Form.__set_script_dependencies_form_settings. cbn [str_in existsb].
    rewrite !orb_false_r.
    now destruct (String.eqb _ "python3"), (String.eqb _ "node"). }
  repeat split; trivial.
  - rewrite H3, H1. intros H. apply negb_false_iff in H.
    now apply str_in_two_not_command.
  - unfold Form.__set_script_dependencies_form_settings. cbn [str_in existsb].
    rewrite !orb_false_r.
    now destruct (String.eqb _ "python3"), (String.eqb _ "node").
Qed.

Lemma form_fields_visibility_witness :
  Form.hidden (Form.__set_script_form_settings
                 {| only_on_task_processing_success := false;
                    run_for_each_destination_file := false;
                    input_type := "node";
                    script := "";
                    cmd := "";
                    args := "";
                    script_dependencies := "" |}) = false.
Proof.
  destruct (form_fields_visibility
              {| only_on_task_processing_success := false;
                 run_for_each_destination_file := false;
                 input_type := "node";
                 script := "";
                 cmd := "";
                 args := "";
                 script_dependencies := "" |}) as (_ & _ & _ & H & _).
  apply H. reflexivity.
Defined.

Lemma option_values_spec (h : host) :
  Form.option_values (Form.__set_input_type_form_settings h)
  = "command" :: filter (fun t => match which h t with Some _ => true | None => false end)
                        ["bash"; "python3"; "node"].
Proof.
  unfold Form.__set_input_type_form_settings. cbn [filter].
  now destruct (which h "bash"), (which h "python3"), (which h "node").
Qed.

(** X16.  The form offers an interpreter only when it is installed:
    [command] is always the first option, each of [bash], [python3] and
    [node] follows, in this order, exactly when [shutil.which] finds it, and
    nothing else is offered.  So for an offered input type other than
    [command] a script that gets built is run by an interpreter that was
    found, never by the text [None]: the command returned starts with the
    path [shutil.which] gave, or for [python3] with the scratch directory's
    [venv/bin/python3]. *)
Theorem form_offers_installed_interpreters
    (h : host) (settings : Settings) (data : Data) (tr : trace) (c : string) (tr' : trace) :
  Form.option_values (Form.__set_input_type_form_settings h)
  = "command" :: filter (fun t => match which h t with Some _ => true | None => false end)
                        ["bash"; "python3"; "node"]
  /\ (In (input_type settings) (Form.option_values (Form.__set_input_type_form_settings h)) ->
      input_type settings <> "command" ->
      build_script h settings data tr = (Return c, tr') ->
      exists exe rest : string,
        c = exe ++ " " ++ rest
        /\ (which h (input_type settings) = Some exe
            \/ (input_type settings = "python3"
                /\ exe = PyLib.join
                           (PyLib.join
                              (PyLib.join
                                 (PyLib.join (PyLib.dirname (final_cache_path data))
                                             "postprocessor_script") "venv") "bin")
                           "python3"))).
Proof.
  split; [apply option_values_spec|].
  rewrite option_values_spec. intros Hin Hne Hb.
  destruct (build_script_result h settings data tr c tr' Hb) as [Hc _].
  cbv zeta in Hc. rewrite Hc. clear Hc Hb.
  destruct Hin as [E|Hin]; [now elim Hne|].
  apply filter_In in Hin as [Hin Hw].
  destruct (which h (input_type settings)) as [exe|] eqn:Ew; [|discriminate].
  cbn in Hin. destruct Hin as [E|[E|[E|[]]]]; rewrite <- E in *;
    cbn [str_in existsb String.eqb Ascii.eqb Bool.eqb orb];
    rewrite ?Ew; cbn [PyStr.str_opt].
  - eexists _, _. split; [reflexivity|]. now left.
  - eexists _, _. split; [reflexivity|]. right. now split.
  - eexists _, _. split; [reflexivity|]. now left.
Qed.

Lemma form_offers_installed_interpreters_witness :
  exists exe rest : string,
    "/cache/task-1/postprocessor_script/venv/bin/python3 /cache/task-1/postprocessor_script/script.py"
    = exe ++ " " ++ rest
    /\ (which python_host "python3" = Some exe
        \/ ("python3" = "python3"
            /\ exe = "/cache/task-1/postprocessor_script/venv/bin/python3")).
Proof.
  refine (proj2 (form_offers_installed_interpreters python_host
            {| only_on_task_processing_success := false;
               run_for_each_destination_file := true;
               input_type := "python3";
               script := "print(1)";
               cmd := "";
               args := "{output_file_path}";
               script_dependencies := "requests" |}
            (sample_data true (Some ["/a"])) []
            "/cache/task-1/postprocessor_script/venv/bin/python3 /cache/task-1/postprocessor_script/script.py"
            (snd (build_script python_host
               {| only_on_task_processing_success := false;
                  run_for_each_destination_file := true;
                  input_type := "python3";
                  script := "print(1)";
                  cmd := "";
                  args := "{output_file_path}";
                  script_dependencies := "requests" |}
               (sample_data true (Some ["/a"])) []))) _ _ _).
  - right. left. reflexivity.
  - discriminate.
  - vm_compute. reflexivity.
Defined.

(* ================================================================== *)
(** ** The dependency cache *)

Lemma append_inv_head (a b b' : string) : a ++ b = a ++ b' -> b = b'.
Proof.
  induction a as [|x a IH]; cbn; [trivial|]. intros [= H]. now apply IH.
Qed.

Lemma join_inj (x b b' : string) :
  PyLib.starts_with_sep b = false -> PyLib.starts_with_sep b' = false ->
  PyLib.join x b = PyLib.join x b' -> b = b'.
Proof.
  intros Hb Hb'. unfold PyLib.join. rewrite Hb, Hb'.
  destruct (negb _ || _); intros H; apply append_inv_head in H; [exact H|].
  now injection H.
Qed.

Lemma str_int_inj (n m : Z) : PyStr.str_int n = PyStr.str_int m -> n = m.
Proof.
  unfold PyStr.str_int. intros H.
  assert (Hok : forall z : Z, Z.to_int z <> Decimal.Pos Decimal.Nil
                         /\ Z.to_int z <> Decimal.Neg Decimal.Nil).
  { intros [|p|p]; cbn; split; try discriminate;
      intros [= E]; now apply (Unsigned.to_uint_nonnil p). }
  apply DecimalZ.to_int_inj.
  assert (E : Some (Z.to_int n) = Some (Z.to_int m)).
  { rewrite <- (NilZero.isi (Z.to_int n)) by apply Hok.
    rewrite <- (NilZero.isi (Z.to_int m)) by apply Hok.
    now rewrite H. }
  now injection E.
Qed.

Lemma str_int_not_absolute (n : Z) : PyLib.starts_with_sep (PyStr.str_int n) = false.
Proof.
  unfold PyStr.str_int.
  destruct n as [|p|p]; cbn; [reflexivity| |reflexivity].
  now destruct (Pos.to_uint p).
Qed.

(** X17.  [get_dependency_cache_directory] always returns: the directory
    [<profile>/.dependency_cache/<library id>], created when the host says
    it is missing.  Libraries with different ids get different
    directories. *)
Theorem dependency_cache_directory_per_library
    (h : host) (id1 id2 : Z) (tr1 tr2 : trace) :
  let dir (id : Z) :=
    PyLib.join (PyLib.join (get_profile_directory h) ".dependency_cache") (PyStr.str_int id) in
  get_dependency_cache_directory h id1 tr1
  = (Return (dir id1),
     if isdir h tr1 (dir id1) then tr1 else (tr1 ++ [Makedirs (dir id1)])%list)
  /\ (fst (get_dependency_cache_directory h id1 tr1)
      = fst (get_dependency_cache_directory h id2 tr2) -> id1 = id2).
Proof.
  cbv zeta.
  assert (E : forall id tr,
             get_dependency_cache_directory h id tr
             = (Return (PyLib.join (PyLib.join (get_profile_directory h) ".dependency_cache")
                                   (PyStr.str_int id)),
                if isdir h tr
                     (PyLib.join (PyLib.join (get_profile_directory h) ".dependency_cache")
                                 (PyStr.str_int id))
                then tr
                else (tr ++ [Makedirs
                               (PyLib.join
                                  (PyLib.join (get_profile_directory h) ".dependency_cache")
                                  (PyStr.str_int id))])%list)).
  { intros id tr.
    unfold get_dependency_cache_directory, ensure_dir, bind, ask, emit, ret. cbv zeta.
    now destruct (isdir h tr _). }
  split; [apply E|].
  rewrite !E. cbn [fst]. intros [= H].
  apply join_inj in H; try apply str_int_not_absolute.
  now apply str_int_inj.
Qed.

Lemma dependency_cache_directory_per_library_witness :
  get_dependency_cache_directory python_host 12 []
  = (Return "/config/.dependency_cache/12", [Makedirs "/config/.dependency_cache/12"])
  /\ 12%Z = 12%Z.
Proof.
  destruct (dependency_cache_directory_per_library python_host 12 12
              [] [Makedirs "/x"]) as [H1 H2].
  split; [exact H1 | apply H2; reflexivity].
Defined.

(* ================================================================== *)
(** ** Settings the hook does not read *)

(** X18.  Which settings matter depends on the input type.  For [command]
    the script and its dependencies are not read; for every other input type
    the configured command is not read; and unless the input type is
    [python], [python3] or [node] the dependencies are not read either.
    Settings that differ only in what is not read give the same outcome and
    the same trace. *)
Theorem unread_settings_do_not_matter
    (h : host) (s1 s2 : Settings) (data : Data) (tr : trace) :
  only_on_task_processing_success s1 = only_on_task_processing_success s2 ->
  run_for_each_destination_file s1 = run_for_each_destination_file s2 ->
  input_type s1 = input_type s2 ->
  args s1 = args s2 ->
  (input_type s1 = "command" /\ cmd s1 = cmd s2)
  \/ (input_type s1 <> "command" /\ script s1 = script s2
      /\ (script_dependencies s1 = script_dependencies s2
          \/ str_in (input_type s1) ["python"; "python3"; "node"] = false)) ->
  on_postprocessor_task_results h s1 data tr = on_postprocessor_task_results h s2 data tr.
Proof.
  destruct s1 as [o1 r1 t1 sc1 c1 a1 d1], s2 as [o2 r2 t2 sc2 c2 a2 d2]. cbn.
  intros -> -> -> -> H.
  unfold on_postprocessor_task_results, run_hook, resolve_command. cbn.
  destruct H as [[-> ->] | (Hne & -> & H)]; [reflexivity|].
  apply String.eqb_neq in Hne. rewrite Hne. cbn [negb].
  destruct H as [-> | H]; [reflexivity|].
  assert (Hpy : str_in t2 ["python"; "python3"] = false).
  { cbn in H |- *. repeat (apply orb_false_iff in H as [? H]).
    repeat (apply orb_false_iff; split); assumption. }
  assert (Hnode : str_in t2 ["node"] = false).
  { cbn in H |- *. repeat (apply orb_false_iff in H as [? H]).
    repeat (apply orb_false_iff; split); assumption. }
  unfold build_script. cbn [input_type script script_dependencies].
  now rewrite Hpy, Hnode.
Qed.

Lemma unread_settings_do_not_matter_witness :
  run_plugin (const_host 0 None)
    {| only_on_task_processing_success := false;
       run_for_each_destination_file := false;
       input_type := "bash";
       script := "echo hi";
       cmd := "ignored";
       args := "{output_files}";
       script_dependencies := "ignored too" |}
    (sample_data true (Some ["/a"]))
  = run_plugin (const_host 0 None)
      {| only_on_task_processing_success := false;
         run_for_each_destination_file := false;
         input_type := "bash";
         script := "echo hi";
         cmd := "";
         args := "{output_files}";
         script_dependencies := "" |}
      (sample_data true (Some ["/a"])).
Proof.
  apply (unread_settings_do_not_matter (const_host 0 None)); try reflexivity.
  right. split; [discriminate|]. split; [reflexivity|]. right. reflexivity.
Defined.

(* ================================================================== *)
(** ** The provisioning steps in order *)

Lemma exec_subprocess_return_inv
    (h : host) (c a : string) (cwd : option string) (tr : trace)
    (r : option bool) (tr' : trace) :
  PyStr.all_space (full_command_of c a) = false ->
  exec_subprocess h c a cwd tr = (Return r, tr') ->
  r = Some true
  /\ tr' = (tr ++ [Invoke c a cwd; Popen (full_command_of c a) cwd 0%Z])%list.
Proof.
  intros Hb. rewrite exec_subprocess_spawn by assumption. cbv zeta.
  destruct (Z.eqb_spec (returncode h (tr ++ [Invoke c a cwd])%list (full_command_of c a) cwd) 0)
    as [E|N]; [|discriminate].
  rewrite E. intros [= <- <-]. now rewrite <- app_assoc.
Qed.

(** X21.  A Python environment that has been provisioned.  When
    [get_executable_venv_python] returns, it has done exactly this, in this
    order: written the dependencies, unchanged, to [requirements.txt] in
    the working directory; created the [pip] cache directory if the host
    said it was missing; run [<python3> -m venv venv] in the working
    directory, which exited 0; set [PIP_CACHE_DIR] to the cache directory;
    run the environment's [python3 -m pip install -r requirements.txt] in
    the working directory, which exited 0.  It returns the environment's
    [venv/bin/python3]. *)
Theorem python_provisioning_sequence
    (h : host) (deps temp cache : string) (tr : trace) (exe : string) (tr' : trace) :
  get_executable_venv_python h deps temp cache tr = (Return exe, tr') ->
  let cache_path := PyLib.join cache "pip" in
  let venv := PyStr.str_opt (which h "python3") ++ " -m venv venv" in
  let pip := exe ++ " -m pip install -r requirements.txt" in
  let written := (tr ++ [WriteFile (PyLib.join temp "requirements.txt") deps])%list in
  exe = PyLib.join (PyLib.join (PyLib.join temp "venv") "bin") "python3"
  /\ tr' = (written
            ++ (if isdir h written cache_path then [] else [Makedirs cache_path])
            ++ [Invoke venv "" (Some temp); Popen (venv ++ " ") (Some temp) 0%Z;
                Putenv "PIP_CACHE_DIR" cache_path;
                Invoke pip "" (Some temp); Popen (pip ++ " ") (Some temp) 0%Z])%list.
Proof.
  intros H. cbv zeta.
  assert (Hb1 : forall x, PyStr.all_space (full_command_of (x ++ " -m venv venv") "") = false).
  { intros x. unfold full_command_of. rewrite !all_space_app.
    now destruct (PyStr.all_space x). }
  assert (Hb2 : forall x, PyStr.all_space
                       (full_command_of (x ++ " -m pip install -r requirements.txt") "")
                     = false).
  { intros x. unfold full_command_of. rewrite !all_space_app.
    now destruct (PyStr.all_space x). }
  unfold get_executable_venv_python, ensure_dir, bind, emit, ask, ret in H.
  cbv zeta in H. revert H.
  destruct (isdir h _ _) eqn:Ed;
    (match goal with
     | |- context [exec_subprocess h ?c ?a ?cwd ?t] =>
         destruct (exec_subprocess h c a cwd t) as [[r1|e1] t1] eqn:E1; [|discriminate]
     end;
     apply exec_subprocess_return_inv in E1 as [_ ->]; [|apply Hb1];
     match goal with
     | |- context [exec_subprocess h ?c ?a ?cwd ?t] =>
         destruct (exec_subprocess h c a cwd t) as [[r2|e2] t2] eqn:E2; [|discriminate]
     end;
     apply exec_subprocess_return_inv in E2 as [_ ->]; [|apply Hb2];
     intros [= <- <-]; split; [reflexivity|];
     unfold full_command_of; rewrite <- !app_assoc; reflexivity).
Qed.

Lemma python_provisioning_sequence_witness :
  "/scratch/venv/bin/python3"
  = PyLib.join (PyLib.join (PyLib.join "/scratch" "venv") "bin") "python3"
  /\ snd (get_executable_venv_python python_host "requests==2.0" "/scratch" "/config/cache" [])
     = [WriteFile "/scratch/requirements.txt" "requests==2.0";
        Makedirs "/config/cache/pip";
        Invoke "/usr/bin/python3 -m venv venv" "" (Some "/scratch");
        Popen "/usr/bin/python3 -m venv venv " (Some "/scratch") 0;
        Putenv "PIP_CACHE_DIR" "/config/cache/pip";
        Invoke "/scratch/venv/bin/python3 -m pip install -r requirements.txt" ""
               (Some "/scratch");
        Popen "/scratch/venv/bin/python3 -m pip install -r requirements.txt "
              (Some "/scratch") 0].
Proof.
  exact (python_provisioning_sequence python_host "requests==2.0" "/scratch" "/config/cache"
           [] "/scratch/venv/bin/python3"
           (snd (get_executable_venv_python python_host "requests==2.0" "/scratch"
                   "/config/cache" []))
           eq_refl).
Defined.

(** X22.  Node dependencies that have been installed.  When
    [get_executable_node] returns, it has written the dependencies,
    unchanged, to [package.json] in the working directory, created the
    [node] cache directory if the host said it was missing, and run
    [<npm> install --cache <cache directory> --prefer-offline] in the working
    directory, which exited 0; nothing else.  It returns what
    [shutil.which('node')] found, which may be nothing. *)
Theorem node_provisioning_sequence
    (h : host) (deps temp cache : string) (tr : trace) (exe : option string) (tr' : trace) :
  get_executable_node h deps temp cache tr = (Return exe, tr') ->
  let cache_path := PyLib.join cache "node" in
  let npm := PyStr.str_opt (which h "npm") ++ " install --cache " ++ cache_path
             ++ " --prefer-offline " in
  let written := (tr ++ [WriteFile (PyLib.join temp "package.json") deps])%list in
  exe = which h "node"
  /\ tr' = (written
            ++ (if isdir h written cache_path then [] else [Makedirs cache_path])
            ++ [Invoke npm "" (Some temp); Popen (npm ++ " ") (Some temp) 0%Z])%list.
Proof.
  intros H. cbv zeta.
  assert (Hb : forall x y, PyStr.all_space
                      (full_command_of (x ++ " install --cache " ++ y ++ " --prefer-offline ") "")
                    = false).
  { intros x y. unfold full_command_of. rewrite !all_space_app.
    now destruct (PyStr.all_space x). }
  unfold get_executable_node, ensure_dir, bind, emit, ask, ret in H.
  cbv zeta in H. revert H.
  destruct (isdir h _ _) eqn:Ed;
    (match goal with
     | |- context [exec_subprocess h ?c ?a ?cwd ?t] =>
         destruct (exec_subprocess h c a cwd t) as [[r1|e1] t1] eqn:E1; [|discriminate]
     end;
     apply exec_subprocess_return_inv in E1 as [_ ->]; [|apply Hb];
     intros [= <- <-]; split; [reflexivity|];
     unfold full_command_of; rewrite <- !app_assoc; reflexivity).
Qed.

Lemma node_provisioning_sequence_witness :
  None = which python_host "node"
  /\ snd (get_executable_node python_host "{}" "/scratch" "/config/cache" [])
     = [WriteFile "/scratch/package.json" "{}";
        Makedirs "/config/cache/node";
        Invoke "None install --cache /config/cache/node --prefer-offline " ""
               (Some "/scratch");
        Popen "None install --cache /config/cache/node --prefer-offline  "
              (Some "/scratch") 0].
Proof.
  exact (node_provisioning_sequence python_host "{}" "/scratch" "/config/cache"
           [] None
           (snd (get_executable_node python_host "{}" "/scratch" "/config/cache" []))
           eq_refl).
Defined.

(* ================================================================== *)
(** ** One call per destination file *)

(** X23.  A run in per-file mode that completes has called the executor,
    after command resolution, exactly once for each destination file, every
    time in the caller's working directory; a run in batch mode that
    completes has called it exactly once. *)
Theorem completed_run_call_count
    (h : host) (settings : Settings) (data : Data) (tr : trace) (c : string)
    (tr0 tr1 : trace) :
  only_on_task_processing_success settings && negb (task_processing_success data) = false ->
  resolve_command h settings data tr = (Return c, tr0) ->
  on_postprocessor_task_results h settings data tr = (Return tt, tr1) ->
  exists new : trace,
    tr1 = (tr0 ++ new)%list
    /\ forallb is_plain_exec new = true
    /\ length (invocations new)
       = if run_for_each_destination_file settings
         then match destination_files data with Some files => length files | None => 0 end
         else 1.
Proof.
  intros Hg Hr H.
  assert (Hfan : on_postprocessor_task_results h settings data tr
                 = bind (ask (fun t => getsize h t (source_data_abspath data)))
                     (fun source_size =>
                        let variable_map := base_variable_map data source_size in
                        if run_for_each_destination_file settings then
                          match destination_files data with
                          | Some files =>
                              for_each_destination_file h files variable_map c
                                (normalize_args (args settings))
                          | None => raise (TypeError "'NoneType' object is not iterable")
                          end
                        else run_once h data variable_map c (normalize_args (args settings)))
                     tr0).
  { unfold on_postprocessor_task_results, run_hook. rewrite Hg.
    unfold bind at 1. now rewrite Hr. }
  destruct (fan_out_grows h is_plain_exec settings data c
              (fun _ _ _ => conj eq_refl eq_refl) tr0) as (new & E & Hall).
  cbv zeta in E, Hfan. rewrite <- Hfan, H in E. cbn [snd] in E.
  exists new. split; [exact E|]. split; [exact Hall|].
  assert (Hlen : length (invocations tr1) = length (invocations tr0) + length (invocations new))
    by now rewrite E, invocations_app, length_app.
  destruct (run_for_each_destination_file settings) eqn:Hm.
  - destruct (destination_files data) as [files|] eqn:Hf.
    + pose proof (per_file_once_per_file h settings data tr c tr0 tr1 files
                    Hg Hm Hf Hr H). lia.
    + rewrite Hfan in H. unfold bind, ask in H. rewrite ?Hm, ?Hf in H. discriminate.
  - destruct (run_once_trace h data
                (base_variable_map data (getsize h tr0 (source_data_abspath data)))
                c (normalize_args (args settings)) tr0) as (tail & Ht & Hi).
    rewrite <- (hook_batch h settings data tr c tr0 Hg Hm Hr), H in Ht. cbn [snd] in Ht.
    rewrite Ht, invocations_app, length_app in Hlen.
    change (invocations (Invoke ?x ?y None :: tail))
      with (Invoke x y None :: invocations tail) in Hlen.
    rewrite Hi in Hlen. cbn [length] in Hlen. lia.
Qed.

Lemma completed_run_call_count_witness :
  exists new : trace,
    snd (run_plugin (const_host 0 None)
           (command_settings false true "touch" "{output_file_path}")
           (sample_data true (Some ["/a"; "/b"; "/c"])))
    = new
    /\ forallb is_plain_exec new = true
    /\ length (invocations new) = 3.
Proof.
  exact (completed_run_call_count (const_host 0 None)
           (command_settings false true "touch" "{output_file_path}")
           (sample_data true (Some ["/a"; "/b"; "/c"])) [] "touch" []
           (snd (run_plugin (const_host 0 None)
                   (command_settings false true "touch" "{output_file_path}")
                   (sample_data true (Some ["/a"; "/b"; "/c"]))))
           eq_refl eq_refl eq_refl).
Defined.

(* ================================================================== *)
(** ** The plugin left unconfigured *)

(** X24.  With the settings [Settings.__init__] starts from (input type
    [command], empty command, empty arguments, both switches off) the hook
    does nothing to the outside world: for every payload and host it calls
    the executor once, on the empty command line, which spawns no process,
    and it returns normally. *)
Theorem default_settings_do_nothing (h : host) (data : Data) (tr : trace) :
  on_postprocessor_task_results h Form.default_settings data tr
  = (Return tt, (tr ++ [Invoke "" "" None])%list).
Proof. reflexivity. Qed.
